(** * CSharperMcp: the usability-review client (tools/generate-usability-review.py)

    A shallow embedding of the script's [McpClient] class and of its
    [generate_review] driver, and the properties of the request/response
    protocol they implement.

    The script is sequential Python on top of asyncio, json and print.  The
    program itself (counter, request construction, control flow, exception
    propagation, try/finally) is embedded as it is written.  What it calls
    in the Python runtime is split in two:
    - the text codecs (json.dumps, json.loads, str formatting, strip, utf-8)
      are the fields of the class [PyRuntime]; every theorem holds for every
      implementation of them;
    - the operating system (the child process, its pipes, the two output
      streams) is the record [world]: what the child will do, whatever the
      script does, and the chronological log of what the script did. *)

From Stdlib Require Import String Ascii List ZArith Lia Bool Floats DecimalString FinFun.
Import ListNotations.
Open Scope string_scope.

Set Implicit Arguments.
Set Warnings "-register-all".

(** ** Python values *)

(** The values json.loads produces and json.dumps consumes.  A dict keeps its
    keys in insertion order, as Python does, so it is an association list. *)
Inductive pyval : Type :=
| PNone
| PBool (b : bool)
| PInt (n : Z)
| PFloat (x : float)
| PStr (s : string)
| PList (items : list pyval)
| PDict (entries : list (string * pyval)).

(** The exceptions that the script's statements can raise. *)
Inductive py_exception : Type :=
| FileNotFoundError            (* create_subprocess_exec: no such executable *)
| PermissionError              (* create_subprocess_exec: not executable *)
| OSError                      (* create_subprocess_exec: any other spawn failure *)
| BrokenPipeError              (* stdin.write / drain on a closed pipe *)
| ConnectionResetError         (* stdin.write / drain on a closed pipe *)
| ProcessLookupError           (* terminate() on a process that is gone *)
| ValueError                   (* readline() over the stream's limit; json.loads
                                  on an integer with too many digits *)
| UnicodeDecodeError           (* bytes.decode() *)
| JSONDecodeError              (* json.loads on text that is no JSON *)
| RecursionError               (* json.loads on text nested too deeply *)
| KeyError (key : string)      (* d[key] on a dict without that key *)
| TypeError                    (* subscript or len() on the wrong type *)
| AttributeError.              (* None.stdin, None.stdout *)

(** Why the operating system refuses to start the child. *)
Inductive launch_error : Type :=
| ExecutableNotFound
| ExecutableNotPermitted
| SpawnFailed.

Definition launch_exception (f : launch_error) : py_exception :=
  match f with
  | ExecutableNotFound => FileNotFoundError
  | ExecutableNotPermitted => PermissionError
  | SpawnFailed => OSError
  end.

(** Why a write to the child's stdin fails. *)
Inductive pipe_error : Type :=
| PipeBroken
| PipeReset.

Definition pipe_exception (f : pipe_error) : py_exception :=
  match f with
  | PipeBroken => BrokenPipeError
  | PipeReset => ConnectionResetError
  end.

(** Why json.loads refuses a text. *)
Inductive loads_error : Type :=
| Malformed          (* no JSON document *)
| TooDeep            (* brackets nested beyond the interpreter's recursion limit *)
| TooManyDigits.     (* an integer beyond the interpreter's digit limit *)

Definition loads_exception (f : loads_error) : py_exception :=
  match f with
  | Malformed => JSONDecodeError
  | TooDeep => RecursionError
  | TooManyDigits => ValueError
  end.

Inductive loads_result : Type :=
| Parsed (v : pyval)
| Refused (f : loads_error).

(** How a Python statement ends: it returns, it raises, or it never resumes
    (an await on a read that the child never satisfies). *)
Inductive outcome (A : Type) : Type :=
| Returned (a : A)
| Raised (e : py_exception)
| Blocked.

Arguments Raised {A} e.
Arguments Blocked {A}.

Definition newline : ascii := ascii_of_nat 10.

Definition nl : string := String newline EmptyString.

(** The number of bytes of [s] before its first line feed. *)
Fixpoint body_length (s : string) : N :=
  match s with
  | EmptyString => 0
  | String c r => if Ascii.eqb c newline then 0 else N.succ (body_length r)
  end.

(** asyncio's default limit on a stream's buffer (2 ** 16), which
    create_subprocess_exec applies when no [limit] is passed. *)
Definition readline_limit : N := 65536.

(** [readline()] hands a line over when no more than the limit precedes its
    line feed. *)
Definition within_limit (line : string) : bool :=
  N.leb (body_length line) readline_limit.

(** The characters that end a line of text: line feed and carriage
    return. *)
Definition line_end (c : ascii) : bool :=
  Ascii.eqb c newline || Ascii.eqb c (ascii_of_nat 13).

(** [s] holds no line break. *)
Fixpoint one_line (s : string) : bool :=
  match s with
  | EmptyString => true
  | String c r => negb (line_end c) && one_line r
  end.

(** [s] holds neither a line break nor a number sign. *)
Fixpoint tame (s : string) : bool :=
  match s with
  | EmptyString => true
  | String c r => negb (line_end c) && negb (Ascii.eqb c "#"%char) && tame r
  end.

(** No line of [s] begins with a number sign; [fresh] tells whether [s]
    starts at the beginning of a line. *)
Fixpoint hash_free (fresh : bool) (s : string) : bool :=
  match s with
  | EmptyString => true
  | String c r =>
      if line_end c then hash_free true r
      else if fresh && Ascii.eqb c "#"%char then false
      else hash_free false r
  end.

Fixpoint dict_get (d : list (string * pyval)) (k : string) : option pyval :=
  match d with
  | [] => None
  | (k', v) :: rest => if String.eqb k' k then Some v else dict_get rest k
  end.

(** [v[k]] for a string key [k]. *)
Definition py_getitem (v : pyval) (k : string) : outcome pyval :=
  match v with
  | PDict d =>
      match dict_get d k with
      | Some x => Returned x
      | None => Raised (KeyError k)
      end
  | _ => Raised TypeError
  end.

(** Truth value of an object, as [or] and [if] test it. *)
Definition truthy (v : pyval) : bool :=
  match v with
  | PNone => false
  | PBool b => b
  | PInt n => negb (Z.eqb n 0)
  | PFloat x => negb (PrimFloat.eqb x PrimFloat.zero)
  | PStr s => negb (String.eqb s "")
  | PList l => match l with [] => false | _ => true end
  | PDict d => match d with [] => false | _ => true end
  end.

(** [a or b] *)
Definition py_or (a b : pyval) : pyval := if truthy a then a else b.

(** Decimal text of an int, as an f-string prints it. *)
Definition decimal (n : Z) : string := NilZero.string_of_int (Z.to_int n).

(** Induction on a value through the items of its lists and dicts. *)
Section PyvalInduction.

Variable P : pyval -> Prop.
Hypothesis none_case : P PNone.
Hypothesis bool_case : forall b, P (PBool b).
Hypothesis int_case : forall n, P (PInt n).
Hypothesis float_case : forall x, P (PFloat x).
Hypothesis str_case : forall s, P (PStr s).
Hypothesis list_case : forall items, Forall P items -> P (PList items).
Hypothesis dict_case :
  forall entries, Forall (fun kv => P (snd kv)) entries -> P (PDict entries).

Fixpoint pyval_induction (v : pyval) : P v :=
  match v with
  | PNone => none_case
  | PBool b => bool_case b
  | PInt n => int_case n
  | PFloat x => float_case x
  | PStr s => str_case s
  | PList items =>
      list_case
        ((fix all (l : list pyval) : Forall P l :=
            match l with
            | [] => Forall_nil P
            | x :: r => Forall_cons x (pyval_induction x) (all r)
            end) items)
  | PDict entries =>
      dict_case
        ((fix all (d : list (string * pyval)) : Forall (fun kv => P (snd kv)) d :=
            match d with
            | [] => Forall_nil _
            | (k, x) :: r =>
                Forall_cons (P := fun kv => P (snd kv)) (k, x) (pyval_induction x) (all r)
            end) entries)
  end.

End PyvalInduction.

(** ** The Python runtime's text codecs *)

Class PyRuntime : Type := {
  (** [json.dumps(v, indent=i)], [None] for the default compact layout *)
  json_dumps : option nat -> pyval -> string;
  (** [json.loads(s)] *)
  json_loads : string -> loads_result;
  (** [format(v)], what an f-string field [{v}] prints *)
  format_value : pyval -> string;
  (** [s.strip()] *)
  str_strip : string -> string;
  (** [s.encode()] *)
  str_encode : string -> string;
  (** [b.decode()]; [None] stands for UnicodeDecodeError *)
  bytes_decode : string -> option string;
  (** the characters of a str, as iterating over it yields them *)
  str_chars : string -> list string;

  format_value_str : forall s, format_value (PStr s) = s;
  bytes_decode_empty : bytes_decode "" = Some "";
  json_loads_empty : json_loads "" = Refused Malformed;
  (** json.dumps opens a line with a bracket, a quote, a digit, a sign, a
      letter or the indentation, and escapes the line breaks of a str *)
  json_dumps_lines : forall indent v, hash_free true (json_dumps indent v) = true;
}.

(** ** The operating system *)

(** What the child has for one [readline()] on its stdout: the bytes up to
    and including a line feed (or up to the end of file, the empty line
    being the end of file itself), or nothing ever. *)
Inductive read_event : Type :=
| Line (data : string)
| Stall.

(** What the script knows of a child it spawned. *)
Inductive proc_status : Type :=
| Running        (* spawned; the script has not signalled it *)
| Signalled      (* SIGTERM sent, not yet waited for *)
| Reaped         (* waited for: the transport is finished *)
| Exited.        (* found gone by terminate(): it had exited by itself *)

Inductive event : Type :=
| Spawn (argv : list string)
| Sleep (seconds : Z)
| StdinWrite (data : string)
| Print (text : string)          (* print(text) *)
| PrintErr (text : string)       (* print(text, file=sys.stderr) *)
| Terminate (pid : nat)
| Wait (pid : nat).

Record world : Type := mkWorld {
  (** what create_subprocess_exec does: [None], the child starts *)
  launch_fault : option launch_error;
  (** what each successive write-and-drain does; accepted once exhausted *)
  write_faults : list (option pipe_error);
  (** what each successive readline gives; end of file once exhausted *)
  child_output : list read_event;
  (** what each successive terminate() finds: [true], the child has exited
      by itself and its transport is finished; still there once exhausted *)
  child_gone : list bool;
  (** the child processes spawned so far; a pid is an index here *)
  procs : list proc_status;
  (** everything done so far, newest first *)
  log : list event;
}.

Definition emit (e : event) (w : world) : world :=
  mkWorld (launch_fault w) (write_faults w) (child_output w) (child_gone w) (procs w)
    (e :: log w).

Definition set_procs (p : list proc_status) (w : world) : world :=
  mkWorld (launch_fault w) (write_faults w) (child_output w) (child_gone w) p (log w).

Definition set_write_faults (f : list (option pipe_error)) (w : world) : world :=
  mkWorld (launch_fault w) f (child_output w) (child_gone w) (procs w) (log w).

Definition set_child_output (o : list read_event) (w : world) : world :=
  mkWorld (launch_fault w) (write_faults w) o (child_gone w) (procs w) (log w).

Definition set_child_gone (g : list bool) (w : world) : world :=
  mkWorld (launch_fault w) (write_faults w) (child_output w) g (procs w) (log w).

Fixpoint set_nth (n : nat) (x : proc_status) (l : list proc_status) : list proc_status :=
  match l, n with
  | [], _ => []
  | _ :: r, O => x :: r
  | y :: r, S m => y :: set_nth m x r
  end.

(** The world [w] once [n] requests were exchanged with the child, the
    processes are [ps] and the events [evs] happened, oldest first. *)
Definition advanced (n : nat) (ps : list proc_status) (evs : list event) (w : world)
  : world :=
  mkWorld (launch_fault w) (skipn n (write_faults w)) (skipn n (child_output w))
    (child_gone w) ps (rev evs ++ log w).


(** The events in the order they happened. *)
Definition history (w : world) : list event := rev (log w).

Definition printed_of (e : event) : option string :=
  match e with Print t => Some t | _ => None end.

Definition written_of (e : event) : option string :=
  match e with StdinWrite d => Some d | _ => None end.

Fixpoint choose {A B} (f : A -> option B) (l : list A) : list B :=
  match l with
  | [] => []
  | x :: r => match f x with Some y => y :: choose f r | None => choose f r end
  end.

(** The arguments of the print calls on sys.stdout, in order. *)
Definition stdout_of (w : world) : list string := choose printed_of (history w).

(** The chunks written to the child's stdin, in order. *)
Definition stdin_of (w : world) : list string := choose written_of (history w).

(** The child processes that the script has neither waited for nor found
    gone. *)
Definition live_children (w : world) : nat :=
  List.length
    (filter (fun s => match s with Reaped | Exited => false | _ => true end) (procs w)).

(** The child has exited by itself when the script comes to terminate it. *)
Definition departed (w : world) : bool := hd false (child_gone w).

(** How a try statement ends whose body ends as [o] and whose finally
    clause closes the child of [w]: terminate() on a child that is gone
    raises, and that exception replaces what the body did. *)
Definition closing {A} (w : world) (o : outcome A) : outcome A :=
  if departed w then Raised ProcessLookupError else o.



(** ** The client object and the statement monad *)

Record McpClient : Type := mkClient {
  server_path : string;
  process : option nat;
  message_id : Z;
}.

(** [McpClient.__init__] *)
Definition McpClient_init (path : string) : McpClient :=
  mkClient path None 0.

(** A statement runs on the client object and the world; both keep the
    changes made before an exception. *)
Definition state : Type := (McpClient * world)%type.

Definition M (A : Type) : Type := state -> outcome A * state.

Definition ret {A} (a : A) : M A := fun s => (Returned a, s).

Definition raise {A} (e : py_exception) : M A := fun s => (Raised e, s).

Definition bind {A B} (m : M A) (k : A -> M B) : M B :=
  fun s =>
    match m s with
    | (Returned a, s') => k a s'
    | (Raised e, s') => (Raised e, s')
    | (Blocked, s') => (Blocked, s')
    end.

Declare Scope py_scope.
Delimit Scope py_scope with py.
Notation "x <- m ;; k" := (bind m (fun x => k))
  (at level 61, m at next level, right associativity) : py_scope.
Notation "m ;; k" := (bind m (fun _ => k))
  (at level 61, right associativity) : py_scope.
Open Scope py_scope.

(** [try: body finally: final] *)
Definition try_finally {A} (body : M A) (final : M unit) : M A :=
  fun s =>
    match body s with
    | (Blocked, s') => (Blocked, s')
    | (o, s') =>
        match final s' with
        | (Returned _, s'') => (o, s'')
        | (Raised e, s'') => (Raised e, s'')
        | (Blocked, s'') => (Blocked, s'')
        end
    end.

Definition lift {A} (o : outcome A) : M A := fun s => (o, s).

Definition get_self : M McpClient := fun s => (Returned (fst s), s).

Definition put_self (c : McpClient) : M unit := fun s => (Returned tt, (c, snd s)).

Definition do_world (f : world -> world) : M unit :=
  fun s => (Returned tt, (fst s, f (snd s))).

Definition print (text : string) : M unit := do_world (emit (Print text)).

Definition print_err (text : string) : M unit := do_world (emit (PrintErr text)).

Fixpoint for_each {A} (xs : list A) (body : A -> M unit) : M unit :=
  match xs with
  | [] => ret tt
  | x :: rest => body x ;; for_each rest body
  end.

(** [asyncio.create_subprocess_exec] on the words of [argv], the three
    standard streams piped. *)
Definition create_subprocess_exec (argv : list string) : M nat :=
  fun s =>
    let w := snd s in
    match launch_fault w with
    | Some f => (Raised (launch_exception f), s)
    | None =>
        (Returned (List.length (procs w)),
         (fst s, emit (Spawn argv) (set_procs (procs w ++ [Running]) w)))
    end.

(** [proc.stdin.write(data); await proc.stdin.drain()].  The script holds one
    child at a time; the pipes of the world are the pipes of that child. *)
Definition stdin_write_drain (data : string) : M unit :=
  fun s =>
    let w := snd s in
    let w' := set_write_faults (tl (write_faults w)) w in
    match hd None (write_faults w) with
    | Some f => (Raised (pipe_exception f), (fst s, w'))
    | None => (Returned tt, (fst s, emit (StdinWrite data) w'))
    end.

(** [await proc.stdout.readline()].  When more than the stream's limit
    precedes the line feed, asyncio drops the line and raises ValueError. *)
Definition stdout_readline : M string :=
  fun s =>
    let w := snd s in
    match hd (Line "") (child_output w) with
    | Line data =>
        let s' := (fst s, set_child_output (tl (child_output w)) w) in
        if within_limit data then (Returned data, s') else (Raised ValueError, s')
    | Stall => (Blocked, s)
    end.

(** [proc.terminate()].  asyncio's subprocess transport lets go of its
    process once the child was waited for or has exited by itself, and
    [terminate] on it then raises ProcessLookupError instead of signalling. *)
Definition proc_terminate (pid : nat) : M unit :=
  fun s =>
    let w := snd s in
    match nth_error (procs w) pid with
    | Some Running | Some Signalled =>
        let w' := set_child_gone (tl (child_gone w)) w in
        if departed w
        then (Raised ProcessLookupError, (fst s, set_procs (set_nth pid Exited (procs w)) w'))
        else (Returned tt,
              (fst s, emit (Terminate pid) (set_procs (set_nth pid Signalled (procs w)) w')))
    | Some Reaped | Some Exited | None => (Raised ProcessLookupError, s)
    end.

(** [await proc.wait()]; the child is taken to exit once it is signalled. *)
Definition proc_wait (pid : nat) : M unit :=
  do_world (fun w => emit (Wait pid) (set_procs (set_nth pid Reaped (procs w)) w)).

(** [await asyncio.sleep(n)] *)
Definition asyncio_sleep (seconds : Z) : M unit := do_world (emit (Sleep seconds)).

Section Client.

Context {RT : PyRuntime}.

(** [McpClient.start] *)
Definition start : M unit :=
  self <- get_self ;;
  p <- create_subprocess_exec ["dotnet"; "run"; "--project"; server_path self] ;;
  self <- get_self ;;
  put_self (mkClient (server_path self) (Some p) (message_id self)) ;;
  print_err "Server started".

(** The dict that [send_request] builds when the counter already holds [id]. *)
Definition make_request (id : Z) (method : string) (params : pyval) : pyval :=
  PDict [("jsonrpc", PStr "2.0");
         ("id", PInt id);
         ("method", PStr method);
         ("params", py_or params (PDict []))].

(** [self.process.stdin] and [self.process.stdout]: attribute access on None fails. *)
Definition self_process_pipe : M nat :=
  self <- get_self ;;
  match process self with
  | Some p => ret p
  | None => raise AttributeError
  end.

Definition decode (b : string) : M string :=
  match bytes_decode b with
  | Some s => ret s
  | None => raise UnicodeDecodeError
  end.

Definition loads (s : string) : M pyval :=
  match json_loads s with
  | Parsed v => ret v
  | Refused f => raise (loads_exception f)
  end.

(** Lines 37-43 of [send_request]: advance the counter, build the request. *)
Definition next_request (method : string) (params : pyval) : M pyval :=
  self <- get_self ;;
  put_self (mkClient (server_path self) (process self) (message_id self + 1)) ;;
  self <- get_self ;;
  ret (make_request (message_id self) method params).

(** Lines 45-55 of [send_request]: write the request, read and parse one line. *)
Definition exchange (request : pyval) : M pyval :=
  let request_json := json_dumps None request ++ nl in
  print_err ("Sending: " ++ str_strip request_json) ;;
  _ <- self_process_pipe ;;
  stdin_write_drain (str_encode request_json) ;;
  _ <- self_process_pipe ;;
  response_line <- stdout_readline ;;
  text <- decode response_line ;;
  print_err ("Received: " ++ str_strip text) ;;
  text <- decode response_line ;;
  loads text.

(** [McpClient.send_request(method, params)]; [params = None] is the call
    that leaves the argument out, so that its default, Python's None, applies. *)
Definition send_request (method : string) (params : option pyval) : M pyval :=
  request <- next_request method (match params with Some p => p | None => PNone end) ;;
  exchange request.

(** [McpClient.close] *)
Definition close : M unit :=
  self <- get_self ;;
  match process self with
  | Some p => proc_terminate p ;; proc_wait p
  | None => ret tt
  end.

End Client.

(** ** The exploration driver *)

Section Driver.

Context {RT : PyRuntime}.

(** [len(v)] *)
Definition py_len (v : pyval) : outcome Z :=
  match v with
  | PStr s => Returned (Z.of_nat (List.length (str_chars s)))
  | PList l => Returned (Z.of_nat (List.length l))
  | PDict d => Returned (Z.of_nat (List.length d))
  | _ => Raised TypeError
  end.

(** The objects that [for x in v] binds [x] to. *)
Definition py_iter (v : pyval) : outcome (list pyval) :=
  match v with
  | PStr s => Returned (map PStr (str_chars s))
  | PList l => Returned l
  | PDict d => Returned (map (fun kv => PStr (fst kv)) d)
  | _ => Raised TypeError
  end.

Definition getitem (v : pyval) (k : string) : M pyval := lift (py_getitem v k).

(** The fenced block that every response and input is printed in. *)
Definition render_json (v : pyval) : string :=
  "```json" ++ nl ++ json_dumps (Some 2) v ++ nl ++ "```" ++ nl.

(** The body of the loop over the tools (lines 98-101). *)
Definition render_tool (tool : pyval) : M unit :=
  name <- getitem tool "name" ;;
  print ("### Tool: `" ++ format_value name ++ "`" ++ nl) ;;
  description <- getitem tool "description" ;;
  print ("**Description:** " ++ format_value description ++ nl) ;;
  print ("**Parameters:**" ++ nl) ;;
  schema <- getitem tool "inputSchema" ;;
  print (render_json schema).

Definition initialize_params : pyval :=
  PDict [("protocolVersion", PStr "2024-11-05");
         ("capabilities", PDict []);
         ("clientInfo", PDict [("name", PStr "usability-review"); ("version", PStr "1.0")])].

Definition tool_call (name : string) (input_data : pyval) : pyval :=
  PDict [("name", PStr name); ("arguments", input_data)].

(** Lines 103-144: the three tool invocations and the closing lines. *)
Definition invocations (workspace_path : string) : M unit :=
  print ("## Tool Outputs" ++ nl) ;;
  print ("### 1. `initialize_workspace` - Load workspace" ++ nl) ;;
  print ("**Input:**" ++ nl) ;;
  let input_data := PDict [("path", PStr workspace_path)] in
  print (render_json input_data) ;;
  workspace_response <-
    send_request "tools/call" (Some (tool_call "initialize_workspace" input_data)) ;;
  print ("**Output:**" ++ nl) ;;
  print (render_json workspace_response) ;;
  print ("### 2. `get_diagnostics` - Get compiler errors/warnings" ++ nl) ;;
  print ("**Input:** (entire workspace, warnings and above)" ++ nl) ;;
  let input_data := PDict [] in
  print (render_json input_data) ;;
  diag_response <-
    send_request "tools/call" (Some (tool_call "get_diagnostics" input_data)) ;;
  print ("**Output:**" ++ nl) ;;
  print (render_json diag_response) ;;
  print ("### 3. `get_symbol_info` - Get symbol information" ++ nl) ;;
  print ("**Input:** (by name - System.String)" ++ nl) ;;
  let input_data := PDict [("symbolName", PStr "System.String")] in
  print (render_json input_data) ;;
  symbol_response <-
    send_request "tools/call" (Some (tool_call "get_symbol_info" input_data)) ;;
  print ("**Output:**" ++ nl) ;;
  print (render_json symbol_response) ;;
  print (nl ++ "---" ++ nl) ;;
  print "Review complete!".

(** Lines 92-101: the listing call and the loop over its descriptors. *)
Definition discovery : M unit :=
  tools_response <- send_request "tools/list" None ;;
  print ("## Available Tools" ++ nl) ;;
  result <- getitem tools_response "result" ;;
  tools <- getitem result "tools" ;;
  count <- lift (py_len tools) ;;
  print ("Found " ++ decimal count ++ " tools:" ++ nl) ;;
  result <- getitem tools_response "result" ;;
  tools <- getitem result "tools" ;;
  items <- lift (py_iter tools) ;;
  for_each items render_tool.

(** Lines 78-90: the handshake and the head of the report. *)
Definition handshake : M unit :=
  init_response <- send_request "initialize" (Some initialize_params) ;;
  print (nl ++ "# CSharper MCP Server - Usability Review" ++ nl) ;;
  print ("## Server Information" ++ nl) ;;
  print (render_json init_response).

(** The body of the try statement (lines 73-144). *)
Definition exploration (workspace_path : string) : M unit :=
  start ;;
  asyncio_sleep 2 ;;
  handshake ;;
  discovery ;;
  invocations workspace_path.

(** [generate_review()].  Its two paths are what pathlib computes from the
    script's location: [server_path] is str(project_root / src /
    CSharperMcp.Server) and [workspace_path] is str(project_root). *)
Definition generate_review (server_path workspace_path : string) (w : world)
  : outcome unit * state :=
  try_finally (exploration workspace_path) close (McpClient_init server_path, w).

End Driver.

(** ** Sessions *)

Section Session.

Context {RT : PyRuntime}.

(** One call of [send_request], together with the request it built. *)
Definition send_request_traced (method : string) (params : option pyval)
  : state -> option pyval * (outcome pyval * state) :=
  fun s =>
    match next_request method (match params with Some p => p | None => PNone end) s with
    | (Returned request, s1) => (Some request, exchange request s1)
    | (Raised e, s1) => (None, (Raised e, s1))
    | (Blocked, s1) => (None, (Blocked, s1))
    end.

(** The requests built by successive calls, each call running in the state
    the previous one left, whatever its outcome was. *)
Fixpoint session_requests (calls : list (string * option pyval)) (s : state) : list pyval :=
  match calls with
  | [] => []
  | (method, params) :: rest =>
      let '(request, (_, s')) := send_request_traced method params s in
      match request with
      | Some r => r :: session_requests rest s'
      | None => session_requests rest s'
      end
  end.

Definition request_id (request : pyval) : outcome pyval := py_getitem request "id".

(** What a caller does with a client object. *)
Inductive operation : Type :=
| CallStart
| CallSend (method : string) (params : option pyval)
| CallClose.

(** The state after the operations [ops], each running in the state the
    previous one left, whatever its outcome was. *)
Fixpoint client_state (ops : list operation) (s : state) : state :=
  match ops with
  | [] => s
  | CallStart :: rest => client_state rest (snd (start s))
  | CallSend method params :: rest =>
      client_state rest (snd (send_request method params s))
  | CallClose :: rest => client_state rest (snd (close s))
  end.

(** The requests that the calls of [send_request] among [ops] build. *)
Fixpoint client_requests (ops : list operation) (s : state) : list pyval :=
  match ops with
  | [] => []
  | CallStart :: rest => client_requests rest (snd (start s))
  | CallSend method params :: rest =>
      let '(request, (_, s')) := send_request_traced method params s in
      match request with
      | Some r => r :: client_requests rest s'
      | None => client_requests rest s'
      end
  | CallClose :: rest => client_requests rest (snd (close s))
  end.

(** The number of calls of [send_request] among [ops]. *)
Fixpoint sends (ops : list operation) : nat :=
  match ops with
  | [] => O
  | CallSend _ _ :: rest => S (sends rest)
  | _ :: rest => sends rest
  end.

End Session.

(** ** What the runs are measured against *)

Section Observations.

Context {RT : PyRuntime}.

(** The bytes [send_request] writes for a request. *)
Definition wire (request : pyval) : string :=
  str_encode (json_dumps None request ++ nl).


(** The child's line [line] reads as the value [v]: readline hands it
    over, and it is the encoding of [v]. *)
Definition reads_as (line : string) (v : pyval) : Prop :=
  within_limit line = true
  /\ exists text, bytes_decode line = Some text /\ json_loads text = Parsed v.

(** The first [n] writes to the child's stdin are accepted. *)
Definition accepts (n : nat) (w : world) : Prop :=
  forall k, (k < n)%nat -> nth k (write_faults w) None = None.

(** The child's first answers are the lines [lines]. *)
Definition answers (lines : list string) (w : world) : Prop :=
  firstn (List.length lines) (child_output w) = map Line lines.

(** [v[k]], where it exists. *)
Definition field (v : pyval) (k : string) : pyval :=
  match py_getitem v k with
  | Returned x => x
  | _ => PNone
  end.











(** The five requests of the exploration, in order. *)
Definition script_requests (workspace_path : string) : list pyval :=
  [make_request 1 "initialize" initialize_params;
   make_request 2 "tools/list" PNone;
   make_request 3 "tools/call"
     (tool_call "initialize_workspace" (PDict [("path", PStr workspace_path)]));
   make_request 4 "tools/call" (tool_call "get_diagnostics" (PDict []));
   make_request 5 "tools/call"
     (tool_call "get_symbol_info" (PDict [("symbolName", PStr "System.String")]))].



(** The lines of [s], each ended by a line feed or a carriage return, the
    last one also when nothing ends it; [current] is the part of the line
    already seen. *)
Fixpoint lines_from (current : string) (s : string) : list string :=
  match s with
  | EmptyString => match current with EmptyString => [] | _ => [current] end
  | String c r =>
      if line_end c then current :: lines_from "" r
      else lines_from (current ++ String c "") r
  end.

Definition lines (s : string) : list string := lines_from "" s.






End Observations.

(** A statement is stable for [R] when [R] relates the state it starts in
    to the state it leaves, however it ends. *)
Definition stable (R : state -> state -> Prop) {A : Type} (m : M A) : Prop :=
  forall s, R s (snd (m s)).



(** The spec's two error classes, as sets of the exceptions of the code:
    a launch error is what create_subprocess_exec raises, a protocol error
    is what reading the response line raises, in readline (ValueError, a
    line over the limit), in decode (UnicodeDecodeError) or in json.loads
    (JSONDecodeError, RecursionError, ValueError). *)
Definition ProcessLaunchError (e : py_exception) : Prop :=
  exists f, e = launch_exception f.

Definition ProtocolError (e : py_exception) : Prop :=
  e = ValueError \/ e = UnicodeDecodeError \/ e = JSONDecodeError \/ e = RecursionError.

(** ** A runtime to compute with

    CPython's codecs on the fragment the examples use: ASCII text, and JSON
    numbers that are integers, of any length and at any depth of nesting.
    json.loads rejects what lies outside (a line with a fraction, an
    exponent or a non-ASCII byte), and never for the depth or the digits
    that make CPython's raise RecursionError or ValueError; a float is
    written in full decimal expansion, where CPython writes the shortest
    one that reads back.  These functions make up the instance
    [AsciiRuntime.runtime] below; the theorems do not depend on it. *)

Module AsciiCodec.

Definition dquote : ascii := ascii_of_nat 34.
Definition squote : ascii := ascii_of_nat 39.
Definition backslash : ascii := ascii_of_nat 92.

Definition char (c : ascii) : string := String c EmptyString.

Definition hex_digit (n : nat) : ascii :=
  if Nat.ltb n 10 then ascii_of_nat (48 + n) else ascii_of_nat (87 + n).

Definition hex2 (n : nat) : string :=
  String (hex_digit (Nat.div n 16)) (char (hex_digit (Nat.modulo n 16))).

(** One character inside a JSON string, ensure_ascii style. *)
Definition json_escape (c : ascii) : string :=
  let n := nat_of_ascii c in
  if Ascii.eqb c dquote then String backslash (char dquote)
  else if Ascii.eqb c backslash then String backslash (char backslash)
  else if Nat.eqb n 10 then String backslash "n"
  else if Nat.eqb n 13 then String backslash "r"
  else if Nat.eqb n 9 then String backslash "t"
  else if Nat.eqb n 8 then String backslash "b"
  else if Nat.eqb n 12 then String backslash "f"
  else if Nat.ltb n 32 || Nat.ltb 126 n then String backslash ("u00" ++ hex2 n)
  else char c.

Fixpoint json_escape_all (s : string) : string :=
  match s with
  | EmptyString => ""
  | String c r => json_escape c ++ json_escape_all r
  end.

Definition json_quote (s : string) : string :=
  char dquote ++ json_escape_all s ++ char dquote.

Fixpoint join (sep : string) (l : list string) : string :=
  match l with
  | [] => ""
  | [x] => x
  | x :: r => x ++ sep ++ join sep r
  end.

Fixpoint spaces (n : nat) : string :=
  match n with O => "" | S m => String " " (spaces m) end.

Fixpoint drop_trailing_zeros (rev_digits : string) : string :=
  match rev_digits with
  | String c r =>
      if Ascii.eqb c "0"%char
      then match r with EmptyString => rev_digits | _ => drop_trailing_zeros r end
      else rev_digits
  | EmptyString => rev_digits
  end.

Fixpoint string_rev (s acc : string) : string :=
  match s with
  | EmptyString => acc
  | String c r => string_rev r (String c acc)
  end.

Fixpoint zeros (n : nat) : string :=
  match n with O => "" | S m => String "0" (zeros m) end.

Definition pad_left (n : nat) (s : string) : string :=
  zeros (n - String.length s) ++ s.

(** [m * 2^e] written out in decimal. *)
Definition expansion (m : positive) (e : Z) : string :=
  if Z.leb 0 e then decimal (Z.pos m * 2 ^ e) ++ ".0"
  else
    let k := Z.to_nat (- e) in
    let digits := pad_left (S k) (decimal (Z.pos m * 5 ^ (- e))) in
    let whole := String.substring 0 (String.length digits - k) digits in
    let frac := String.substring (String.length digits - k) k digits in
    whole ++ "." ++ string_rev (drop_trailing_zeros (string_rev frac "")) "".

Definition float_text (x : float) : string :=
  match Prim2SF x with
  | S754_nan => "NaN"
  | S754_infinity false => "Infinity"
  | S754_infinity true => "-Infinity"
  | S754_zero false => "0.0"
  | S754_zero true => "-0.0"
  | S754_finite false m e => expansion m e
  | S754_finite true m e => "-" ++ expansion m e
  end.

(** The encoder at nesting depth [level]. *)
Fixpoint encode (indent : option nat) (level : nat) (v : pyval) {struct v} : string :=
  let opening :=
    match indent with Some i => nl ++ spaces (i * S level) | None => "" end in
  let closing :=
    match indent with Some i => nl ++ spaces (i * level) | None => "" end in
  let separator :=
    match indent with Some i => "," ++ nl ++ spaces (i * S level) | None => ", " end in
  match v with
  | PNone => "null"
  | PBool true => "true"
  | PBool false => "false"
  | PInt n => decimal n
  | PFloat x => float_text x
  | PStr s => json_quote s
  | PList [] => "[]"
  | PList l =>
      "[" ++ opening ++ join separator (map (encode indent (S level)) l) ++ closing ++ "]"
  | PDict [] => "{}"
  | PDict d =>
      "{" ++ opening ++
      join separator
        ((fix members (d : list (string * pyval)) : list string :=
            match d with
            | [] => []
            | (k, x) :: r => (json_quote k ++ ": " ++ encode indent (S level) x) :: members r
            end) d)
      ++ closing ++ "}"
  end.

Definition dumps (indent : option nat) (v : pyval) : string := encode indent 0 v.

(** *** The decoder *)

Definition is_ws (c : ascii) : bool :=
  let n := nat_of_ascii c in
  Nat.eqb n 32 || Nat.eqb n 9 || Nat.eqb n 10 || Nat.eqb n 13.

Fixpoint skip_ws (s : string) : string :=
  match s with
  | String c r => if is_ws c then skip_ws r else s
  | EmptyString => s
  end.

Definition is_digit (c : ascii) : bool :=
  let n := nat_of_ascii c in Nat.leb 48 n && Nat.leb n 57.

Definition hex_value (c : ascii) : option nat :=
  let n := nat_of_ascii c in
  if Nat.leb 48 n && Nat.leb n 57 then Some (n - 48)
  else if Nat.leb 97 n && Nat.leb n 102 then Some (n - 87)
  else if Nat.leb 65 n && Nat.leb n 70 then Some (n - 55)
  else None.

(** The digits at the head of [s], as a number, and what follows them. *)
Fixpoint scan_digits (s : string) (acc : Z) : Z * string :=
  match s with
  | String c r =>
      if is_digit c then scan_digits r (10 * acc + Z.of_nat (nat_of_ascii c - 48))
      else (acc, s)
  | EmptyString => (acc, s)
  end.

Definition starts_float_part (s : string) : bool :=
  match s with
  | String c _ => Ascii.eqb c "."%char || Ascii.eqb c "e"%char || Ascii.eqb c "E"%char
  | EmptyString => false
  end.

(** An integer literal with its sign already read. *)
Definition scan_int (negative : bool) (s : string) : option (pyval * string) :=
  match s with
  | String c r =>
      if Ascii.eqb c "0"%char then
        if starts_float_part r then None
        else Some (PInt 0, r)
      else if is_digit c then
        let '(n, rest) := scan_digits s 0 in
        if starts_float_part rest then None
        else Some (PInt (if negative then - n else n), rest)
      else None
  | EmptyString => None
  end.

(** The body of a string literal, after its opening quote. *)
Fixpoint scan_string (s : string) (acc : string) : option (string * string) :=
  match s with
  | EmptyString => None
  | String c r =>
      if Ascii.eqb c dquote then Some (string_rev acc "", r)
      else if Ascii.eqb c backslash then
        match r with
        | String e r' =>
            let plain (x : nat) := scan_string r' (String (ascii_of_nat x) acc) in
            if Ascii.eqb e dquote then plain 34
            else if Ascii.eqb e backslash then plain 92
            else if Ascii.eqb e "/"%char then plain 47
            else if Ascii.eqb e "b"%char then plain 8
            else if Ascii.eqb e "f"%char then plain 12
            else if Ascii.eqb e "n"%char then plain 10
            else if Ascii.eqb e "r"%char then plain 13
            else if Ascii.eqb e "t"%char then plain 9
            else if Ascii.eqb e "u"%char then
              match r' with
              | String a (String b (String c' (String d r''))) =>
                  match hex_value a, hex_value b, hex_value c', hex_value d with
                  | Some 0, Some 0, Some h, Some l =>
                      if Nat.ltb h 8
                      then scan_string r'' (String (ascii_of_nat (16 * h + l)) acc)
                      else None
                  | _, _, _, _ => None
                  end
              | _ => None
              end
            else None
        | EmptyString => None
        end
      else if Nat.ltb (nat_of_ascii c) 32 then None
      else scan_string r (String c acc)
  end.

(** [d[k] = v] on a dict: a new key goes last, an old one keeps its place. *)
Fixpoint dict_set (d : list (string * pyval)) (k : string) (v : pyval)
  : list (string * pyval) :=
  match d with
  | [] => [(k, v)]
  | (k', v') :: r => if String.eqb k' k then (k, v) :: r else (k', v') :: dict_set r k v
  end.

Definition expect (word : string) (v : pyval) (s : string) : option (pyval * string) :=
  if String.prefix word s
  then Some (v, String.substring (String.length word) (String.length s - String.length word) s)
  else None.

Fixpoint scan_value (fuel : nat) (s : string) : option (pyval * string) :=
  match fuel with
  | O => None
  | S f =>
      match s with
      | EmptyString => None
      | String c r =>
          if Ascii.eqb c dquote then
            match scan_string r "" with
            | Some (x, rest) => Some (PStr x, rest)
            | None => None
            end
          else if Ascii.eqb c "{"%char then
            match skip_ws r with
            | String c' r' =>
                if Ascii.eqb c' "}"%char then Some (PDict [], r')
                else scan_members f (String c' r') []
            | EmptyString => None
            end
          else if Ascii.eqb c "["%char then
            match skip_ws r with
            | String c' r' =>
                if Ascii.eqb c' "]"%char then Some (PList [], r')
                else scan_items f (String c' r') []
            | EmptyString => None
            end
          else if Ascii.eqb c "n"%char then expect "null" PNone s
          else if Ascii.eqb c "t"%char then expect "true" (PBool true) s
          else if Ascii.eqb c "f"%char then expect "false" (PBool false) s
          else if Ascii.eqb c "-"%char then scan_int true r
          else scan_int false s
      end
  end

with scan_members (fuel : nat) (s : string) (acc : list (string * pyval))
  : option (pyval * string) :=
  match fuel with
  | O => None
  | S f =>
      match s with
      | String c r =>
          if Ascii.eqb c dquote then
            match scan_string r "" with
            | Some (k, r1) =>
                match skip_ws r1 with
                | String c1 r2 =>
                    if Ascii.eqb c1 ":"%char then
                      match scan_value f (skip_ws r2) with
                      | Some (v, r3) =>
                          match skip_ws r3 with
                          | String c3 r4 =>
                              if Ascii.eqb c3 ","%char
                              then scan_members f (skip_ws r4) (dict_set acc k v)
                              else if Ascii.eqb c3 "}"%char
                              then Some (PDict (dict_set acc k v), r4)
                              else None
                          | EmptyString => None
                          end
                      | None => None
                      end
                    else None
                | EmptyString => None
                end
            | None => None
            end
          else None
      | EmptyString => None
      end
  end

with scan_items (fuel : nat) (s : string) (acc : list pyval) : option (pyval * string) :=
  match fuel with
  | O => None
  | S f =>
      match scan_value f s with
      | Some (v, r1) =>
          match skip_ws r1 with
          | String c r2 =>
              if Ascii.eqb c ","%char then scan_items f (skip_ws r2) (acc ++ [v])
              else if Ascii.eqb c "]"%char then Some (PList (acc ++ [v]), r2)
              else None
          | EmptyString => None
          end
      | None => None
      end
  end.

(** [json.loads]: one value, white space around it, nothing else. *)
Definition loads (s : string) : loads_result :=
  match scan_value (S (String.length s)) (skip_ws s) with
  | Some (v, rest) =>
      match skip_ws rest with
      | EmptyString => Parsed v
      | _ => Refused Malformed
      end
  | None => Refused Malformed
  end.

(** *** str, strip, encode and decode *)

Definition is_space (c : ascii) : bool :=
  let n := nat_of_ascii c in
  Nat.eqb n 32 || (Nat.leb 9 n && Nat.leb n 13) || (Nat.leb 28 n && Nat.leb n 31).

Fixpoint lstrip (s : string) : string :=
  match s with
  | String c r => if is_space c then lstrip r else s
  | EmptyString => s
  end.

Definition strip (s : string) : string :=
  string_rev (lstrip (string_rev (lstrip s) "")) "".

Fixpoint contains (c : ascii) (s : string) : bool :=
  match s with
  | EmptyString => false
  | String c' r => Ascii.eqb c c' || contains c r
  end.

(** [repr(s)] of an ASCII str. *)
Definition repr_str (s : string) : string :=
  let q := if contains squote s && negb (contains dquote s) then dquote else squote in
  let fix body (s : string) : string :=
    match s with
    | EmptyString => ""
    | String c r =>
        let n := nat_of_ascii c in
        (if Ascii.eqb c q || Ascii.eqb c backslash then String backslash (char c)
         else if Nat.eqb n 10 then String backslash "n"
         else if Nat.eqb n 13 then String backslash "r"
         else if Nat.eqb n 9 then String backslash "t"
         else if Nat.ltb n 32 || Nat.ltb 126 n then String backslash ("x" ++ hex2 n)
         else char c) ++ body r
    end in
  char q ++ body s ++ char q.

Fixpoint repr (v : pyval) {struct v} : string :=
  match v with
  | PNone => "None"
  | PBool true => "True"
  | PBool false => "False"
  | PInt n => decimal n
  | PFloat x =>
      match Prim2SF x with
      | S754_nan => "nan"
      | S754_infinity false => "inf"
      | S754_infinity true => "-inf"
      | _ => float_text x
      end
  | PStr s => repr_str s
  | PList l => "[" ++ join ", " (map repr l) ++ "]"
  | PDict d =>
      "{" ++
      join ", "
        ((fix members (d : list (string * pyval)) : list string :=
            match d with
            | [] => []
            | (k, x) :: r => (repr_str k ++ ": " ++ repr x) :: members r
            end) d)
      ++ "}"
  end.

Definition format (v : pyval) : string :=
  match v with
  | PStr s => s
  | _ => repr v
  end.

Fixpoint is_ascii_text (s : string) : bool :=
  match s with
  | EmptyString => true
  | String c r => Nat.ltb (nat_of_ascii c) 128 && is_ascii_text r
  end.

Definition decode (b : string) : option string :=
  if is_ascii_text b then Some b else None.

Fixpoint chars (s : string) : list string :=
  match s with
  | EmptyString => []
  | String c r => char c :: chars r
  end.

End AsciiCodec.

(** ** Children to run the script against *)

Module Scenario.

Import AsciiCodec.

(** A JSON string literal of plain text. *)
Definition q (s : string) : string := char dquote ++ s ++ char dquote.


(** A line that carries the value [v]. *)
Definition line_of (v : pyval) : string := dumps None v ++ nl.

Definition success (id : Z) (result : pyval) : pyval :=
  PDict [("jsonrpc", PStr "2.0"); ("id", PInt id); ("result", result)].


Definition tool (name description : string) : pyval :=
  PDict [("name", PStr name); ("description", PStr description);
         ("inputSchema", PDict [("type", PStr "object")])].


Definition two_tools : list pyval :=
  [tool "get_diagnostics" "Compiler diagnostics"; tool "get_symbol_info" "Symbol lookup"].

(** A child that starts, takes every write and answers with [lines], one
    per request, then closes its output. *)
Definition child (lines : list string) : world :=
  mkWorld None [] (map Line lines) [] [] [].

(** A child whose pipe refuses the first write, and that then answers with
    text that is no JSON, with nothing, and at last with a response. *)
Definition flaky : world :=
  mkWorld None [Some PipeBroken]
    [Line ("Build started..." ++ nl); Line ""; Line (line_of (success 4 PNone))] [] [] [].

(** No dotnet on the machine. *)
Definition no_runtime : world :=
  mkWorld (Some ExecutableNotFound) [] [] [] [] [].


(** What a server answers when all goes well, and when the handshake and
    the tools fail. *)
Definition welcome : pyval := success 1 (PDict [("ok", PBool true)]).

Definition listing (tools : list pyval) : pyval :=
  success 2 (PDict [("tools", PList tools)]).

Definition done (id : Z) : pyval := success id (PDict [("content", PList [])]).



(** A server that answers the five requests and lists [tools]. *)
Definition server_lines (tools : list pyval) : list string :=
  [line_of welcome; line_of (listing tools); line_of (done 3); line_of (done 4);
   line_of (done 5)].




(** A client whose [start] has succeeded, before any request. *)
Definition started (w : world) : state := snd (start (McpClient_init "srv", w)).

End Scenario.

Unset Implicit Arguments.

(** ** Observations of a run, for the properties beyond the spec's *)

Section Judgements.

Context {RT : PyRuntime}.

(** The request that [send_request] builds on the client [c]. *)
Definition request_of (c : McpClient) (method : string) (params : option pyval) : pyval :=
  make_request (message_id c + 1) method
    (match params with Some p => p | None => PNone end).

(** The line on stderr that announces a request. *)
Definition announce (request : pyval) : event :=
  PrintErr ("Sending: " ++ str_strip (json_dumps None request ++ nl)).

(** How successive calls end, each call running in the state the previous
    one left. *)
Fixpoint session_outcomes (calls : list (string * option pyval)) (s : state)
  : list (outcome pyval) :=
  match calls with
  | [] => []
  | (method, params) :: rest =>
      fst (send_request method params s)
      :: session_outcomes rest (snd (send_request method params s))
  end.

(** A statement keeps an observation when the observation is the same
    before and after. *)
Definition keeps {X : Type} (obs : state -> X) (s s' : state) : Prop := obs s' = obs s.


(** The counter and what was written to the child. *)
Definition obs_requests (s : state) : Z * list string :=
  (message_id (fst s), stdin_of (snd s)).

(** What was printed on sys.stdout. *)
Definition obs_stdout (s : state) : list string := stdout_of (snd s).

(** After [base], the first [k] requests of the script were written, and
    the counter stands at [k]. *)
Definition sent (base : list string) (wp : string) (k : nat) (s : state) : Prop :=
  message_id (fst s) = Z.of_nat k
  /\ stdin_of (snd s) = (base ++ map wire (firstn k (script_requests wp)))%list.

(** After [base], some first requests of the script were written, and
    nothing else. *)
Definition sent_some (base : list string) (wp : string) (s : state) : Prop :=
  exists n, (n <= 5)%nat
    /\ stdin_of (snd s) = (base ++ map wire (firstn n (script_requests wp)))%list.

(** The statement [m] takes the script from its [k]-th to its [j]-th request
    when it returns, and stays within the script when it does not. *)
Definition steps (base : list string) (wp : string) (k : nat) {A : Type} (m : M A)
  (j : nat) : Prop :=
  forall s, sent base wp k s ->
    match fst (m s) with
    | Returned _ => sent base wp j (snd (m s))
    | _ => sent_some base wp (snd (m s))
    end.



End Judgements.

(** ** More children *)

Module Mishaps.

Import AsciiCodec Scenario.

(** A child that starts and never writes a line. *)
Definition silent : world := mkWorld None [] [Stall] [] [] [].

(** A child that logs a line on its stdout before it answers. *)
Definition chatty : world :=
  child [line_of (PStr "listening"); line_of (listing two_tools); line_of welcome].



(** [n] letters. *)
Definition padding (n : N) : string := N.iter n (String "x"%char) "".


Definition greeting_line (n : N) : string :=
  "{" ++ q "jsonrpc" ++ ": " ++ q "2.0" ++ ", " ++ q "id" ++ ": 1, " ++ q "result" ++ ": {"
  ++ q "banner" ++ ": " ++ q (padding n) ++ "}}" ++ nl.








End Mishaps.

(** Case analysis on an innermost scrutinee of the goal. *)
Ltac break_match :=
  match goal with
  | |- context [match ?x with _ => _ end] =>
      lazymatch x with
      | context [match _ with _ => _ end] => fail
      | _ => destruct x eqn:?
      end
  end.

Lemma choose_app {A B} (f : A -> option B) (l l' : list A) :
  choose f (l ++ l') = (choose f l ++ choose f l')%list.
Proof.
  induction l as [| x l IH]; [reflexivity |].
  cbn. destruct (f x); cbn; rewrite IH; reflexivity.
Qed.

(** ** Lines of text *)

Lemma hash_free_weaken s : hash_free true s = true -> hash_free false s = true.
Proof.
  destruct s as [| c r]; [reflexivity |]. cbn [hash_free andb].
  destruct (line_end c); [trivial |].
  destruct (Ascii.eqb c "#"%char); [discriminate | trivial].
Qed.

Lemma hash_free_app a : forall fresh b,
  hash_free fresh a = true -> hash_free true b = true ->
  hash_free fresh (a ++ b) = true.
Proof.
  induction a as [| c r IH]; intros fresh b Ha Hb.
  - cbn [append]. destruct fresh; [assumption | apply hash_free_weaken, Hb].
  - cbn [append hash_free] in *. destruct (line_end c); [apply IH; assumption |].
    destruct (fresh && Ascii.eqb c "#"%char); [discriminate |].
    apply IH; assumption.
Qed.

Lemma one_line_app a b : one_line (a ++ b) = one_line a && one_line b.
Proof.
  induction a as [| c r IH]; [reflexivity |].
  cbn [append one_line]. rewrite IH. apply andb_assoc.
Qed.

Lemma one_line_hash_free s : one_line s = true -> hash_free false s = true.
Proof.
  induction s as [| c r IH]; [reflexivity |]. cbn [one_line hash_free andb].
  destruct (line_end c); [discriminate |]. exact IH.
Qed.

Lemma tame_app a b : tame (a ++ b) = tame a && tame b.
Proof.
  induction a as [| c r IH]; [reflexivity |].
  cbn [append tame]. rewrite IH. rewrite !andb_assoc. reflexivity.
Qed.

Lemma tame_hash_free s : forall fresh, tame s = true -> hash_free fresh s = true.
Proof.
  induction s as [| c r IH]; intros fresh H; [reflexivity |].
  cbn [tame hash_free] in *.
  destruct (line_end c); [discriminate |].
  destruct (Ascii.eqb c "#"%char); [discriminate |].
  rewrite andb_false_r. apply IH, H.
Qed.

Lemma tame_uint d : tame (NilEmpty.string_of_uint d) = true.
Proof. induction d; cbn; trivial. Qed.

Lemma tame_decimal n : tame (decimal n) = true.
Proof.
  unfold decimal, NilZero.string_of_int, NilZero.string_of_uint.
  destruct (Z.to_int n) as [d | d]; destruct d; cbn; trivial; apply tame_uint.
Qed.



(** ** The codecs as a runtime *)

Module AsciiRuntime.

Import AsciiCodec.

Lemma tame_zeros n : tame (zeros n) = true.
Proof. induction n; cbn; trivial. Qed.

Lemma tame_substring s : forall n m, tame s = true -> tame (String.substring n m s) = true.
Proof.
  induction s as [| c r IH]; intros n m H.
  - destruct n, m; reflexivity.
  - cbn in H. apply andb_prop in H. destruct H as [Hc Hr].
    destruct n as [| n].
    + destruct m as [| m]; [reflexivity |]. cbn. rewrite Hc. apply IH, Hr.
    + cbn. apply IH, Hr.
Qed.

Lemma tame_string_rev s : forall acc,
  tame s = true -> tame acc = true -> tame (string_rev s acc) = true.
Proof.
  induction s as [| c r IH]; intros acc Hs Ha; [exact Ha |].
  cbn in Hs. apply andb_prop in Hs. destruct Hs as [Hc Hr].
  cbn. apply IH; [exact Hr |]. cbn. rewrite Hc. exact Ha.
Qed.

Lemma tame_drop_trailing_zeros s : tame s = true -> tame (drop_trailing_zeros s) = true.
Proof.
  induction s as [| c r IH]; intros H; [reflexivity |].
  cbn [drop_trailing_zeros]. destruct (Ascii.eqb c "0"%char); [| exact H].
  destruct r as [| c' r']; [exact H |].
  apply IH. cbn in H. apply andb_prop in H. apply H.
Qed.

Lemma tame_expansion m e : tame (expansion m e) = true.
Proof.
  unfold expansion, pad_left. destruct (Z.leb 0 e).
  - rewrite tame_app, tame_decimal. reflexivity.
  - assert (Hd : forall k n, tame (zeros k ++ decimal n) = true).
    { intros k n. rewrite tame_app, tame_zeros, tame_decimal. reflexivity. }
    rewrite tame_app, tame_substring by apply Hd.
    cbn [andb]. change ("." ++ ?x) with (String "."%char x). cbn [tame].
    apply tame_string_rev; [| reflexivity].
    apply tame_drop_trailing_zeros, tame_string_rev; [| reflexivity].
    apply tame_substring, Hd.
Qed.

Lemma tame_float_text x : tame (float_text x) = true.
Proof.
  unfold float_text. destruct (Prim2SF x) as [[] | [] | | [] m e]; try reflexivity.
  - change ("-" ++ ?y) with (String "-"%char y). cbn [tame]. apply tame_expansion.
  - apply tame_expansion.
Qed.

Lemma one_line_json_escape c : one_line (json_escape c) = true.
Proof. destruct c as [[] [] [] [] [] [] [] []]; reflexivity. Qed.

Lemma one_line_json_escape_all s : one_line (json_escape_all s) = true.
Proof.
  induction s as [| c r IH]; [reflexivity |].
  cbn. rewrite one_line_app, one_line_json_escape, IH. reflexivity.
Qed.

Lemma one_line_json_quote s : one_line (json_quote s) = true.
Proof.
  unfold json_quote. rewrite !one_line_app, one_line_json_escape_all. reflexivity.
Qed.

Lemma json_quote_lines s : hash_free true (json_quote s) = true.
Proof.
  pose proof (one_line_json_quote s) as H. unfold json_quote in *.
  change (char dquote ++ ?y) with (String dquote y) in *.
  cbn in *. apply one_line_hash_free, H.
Qed.

Lemma spaces_lines n : hash_free true (spaces n) = true.
Proof.
  destruct n as [| n]; [reflexivity |]. cbn.
  induction n as [| n IH]; [reflexivity | exact IH].
Qed.

Lemma join_lines sep items :
  hash_free true sep = true ->
  Forall (fun x => hash_free true x = true) items ->
  hash_free true (join sep items) = true.
Proof.
  intros Hsep H. induction H as [| x r Hx Hr IH]; [reflexivity |].
  cbn [join]. destruct r as [| y r']; [exact Hx |].
  apply hash_free_app; [exact Hx |]. apply hash_free_app; [exact Hsep | exact IH].
Qed.

Lemma encode_lines v : forall indent level, hash_free true (encode indent level v) = true.
Proof.
  induction v as [| b | n | x | s | items IH | entries IH] using pyval_induction;
    intros indent level.
  - reflexivity.
  - destruct b; reflexivity.
  - apply tame_hash_free, tame_decimal.
  - apply tame_hash_free, tame_float_text.
  - apply json_quote_lines.
  - assert (Hopen : forall k,
      hash_free true (match indent with Some i => nl ++ spaces (i * k) | None => "" end)
      = true).
    { intros k. destruct indent; [apply (spaces_lines _) | reflexivity]. }
    assert (Hsep :
      hash_free true
        (match indent with Some i => "," ++ nl ++ spaces (i * S level) | None => ", " end)
      = true).
    { destruct indent; [apply (spaces_lines _) | reflexivity]. }
    destruct items as [| a rest]; [reflexivity |].
    cbn [encode].
    apply (hash_free_app "["); [reflexivity |].
    apply hash_free_app; [apply Hopen |].
    apply hash_free_app; [| apply hash_free_app; [apply Hopen | reflexivity]].
    apply join_lines; [exact Hsep |].
    apply Forall_map. revert IH. apply Forall_impl. intros y Hy. apply Hy.
  - assert (Hopen : forall k,
      hash_free true (match indent with Some i => nl ++ spaces (i * k) | None => "" end)
      = true).
    { intros k. destruct indent; [apply (spaces_lines _) | reflexivity]. }
    assert (Hsep :
      hash_free true
        (match indent with Some i => "," ++ nl ++ spaces (i * S level) | None => ", " end)
      = true).
    { destruct indent; [apply (spaces_lines _) | reflexivity]. }
    assert (Hmembers :
      Forall (fun x => hash_free true x = true)
        ((fix members (d : list (string * pyval)) : list string :=
            match d with
            | [] => []
            | (k, x) :: r => (json_quote k ++ ": " ++ encode indent (S level) x) :: members r
            end) entries)).
    { induction IH as [| [k x] r Hx Hr IHr]; [constructor |].
      constructor; [| exact IHr].
      apply hash_free_app; [apply json_quote_lines |].
      apply (hash_free_app ": "); [reflexivity | apply Hx]. }
    destruct entries as [| a rest]; [reflexivity |].
    cbn [encode].
    apply (hash_free_app "{"); [reflexivity |].
    apply hash_free_app; [apply Hopen |].
    apply hash_free_app; [| apply hash_free_app; [apply Hopen | reflexivity]].
    apply join_lines; [exact Hsep | exact Hmembers].
Qed.

#[export] Instance runtime : PyRuntime := {|
  json_dumps := dumps;
  json_loads := loads;
  format_value := format;
  str_strip := strip;
  str_encode := fun s => s;
  bytes_decode := decode;
  str_chars := chars;
  format_value_str := fun s => eq_refl;
  bytes_decode_empty := eq_refl;
  json_loads_empty := eq_refl;
  json_dumps_lines := fun indent v => encode_lines v indent 0;
|}.

End AsciiRuntime.

Section SessionFacts.

Context {RT : PyRuntime}.

Lemma send_request_traced_run method params s :
  snd (send_request_traced method params s) = send_request method params s.
Proof.
  unfold send_request_traced, send_request, bind.
  destruct (next_request _ _ s) as [[r | e |] s1]; reflexivity.
Qed.

Lemma next_request_run method params c w :
  next_request method params (c, w) =
  (Returned (make_request (message_id c + 1) method params),
   (mkClient (server_path c) (process c) (message_id c + 1), w)).
Proof. reflexivity. Qed.

Lemma exchange_self request s : fst (snd (exchange request s)) = fst s.
Proof.
  destruct s as [c w].
  unfold exchange, bind, print_err, do_world, self_process_pipe, get_self,
    stdin_write_drain, stdout_readline, decode, loads, ret, raise.
  cbn. repeat (break_match; cbn; try reflexivity).
Qed.

Lemma session_requests_from calls : forall c w,
  map request_id (session_requests calls (c, w)) =
  map (fun k => Returned (PInt (message_id c + Z.of_nat k))) (seq 1 (List.length calls)).
Proof.
  induction calls as [| [method params] rest IH]; intros c w; [reflexivity |].
  cbn [session_requests List.length seq map].
  unfold send_request_traced. rewrite next_request_run.
  destruct (exchange _ _) as [o [c' w']] eqn:E.
  assert (Hc : c' = mkClient (server_path c) (process c) (message_id c + 1)).
  { pose proof (exchange_self (make_request (message_id c + 1) method
      match params with Some p => p | None => PNone end)
      (mkClient (server_path c) (process c) (message_id c + 1), w)) as H.
    rewrite E in H. exact H. }
  cbn [map]. f_equal.
  rewrite IH, Hc. cbn [message_id].
  rewrite <- (seq_shift (List.length rest) 1), map_map. apply map_ext. intros k. f_equal. f_equal. lia.
Qed.

End SessionFacts.

(** ** The calls of the client *)

Section ClientFacts.

Context {RT : PyRuntime}.

Lemma bind_returned {A B} (m : M A) (k : A -> M B) s a s' :
  m s = (Returned a, s') -> bind m k s = k a s'.
Proof. intros H. unfold bind. rewrite H. reflexivity. Qed.

Lemma bind_raised {A B} (m : M A) (k : A -> M B) s e s' :
  m s = (Raised e, s') -> bind m k s = (Raised e, s').
Proof. intros H. unfold bind. rewrite H. reflexivity. Qed.

Lemma send_request_unfold method params s :
  send_request method params s =
  exchange (make_request (message_id (fst s) + 1)%Z method
              (match params with Some p => p | None => PNone end))
    (mkClient (server_path (fst s)) (process (fst s)) (message_id (fst s) + 1)%Z, snd s).
Proof. destruct s as [c w]. reflexivity. Qed.

(** The counter after a call, whatever the call came to. *)
Lemma send_request_counter method params s :
  message_id (fst (snd (send_request method params s))) = (message_id (fst s) + 1)%Z.
Proof.
  rewrite send_request_unfold, exchange_self. reflexivity.
Qed.

Lemma start_counter s : message_id (fst (snd (start s))) = message_id (fst s).
Proof.
  destruct s as [c w].
  unfold start, bind, get_self, create_subprocess_exec, put_self, print_err, do_world.
  cbn. destruct (launch_fault w); reflexivity.
Qed.

Lemma close_counter s : message_id (fst (snd (close s))) = message_id (fst s).
Proof.
  destruct s as [c w].
  unfold close, bind, get_self, proc_terminate, proc_wait, do_world.
  cbn. repeat (break_match; cbn; try reflexivity).
Qed.

Lemma client_requests_from ops : forall s,
  map request_id (client_requests ops s) =
  map (fun k => Returned (PInt (message_id (fst s) + Z.of_nat k))) (seq 1 (sends ops)).
Proof.
  induction ops as [| [| method params |] rest IH]; intros s; [reflexivity | | |].
  - cbn [client_requests sends]. rewrite IH, start_counter. reflexivity.
  - cbn [client_requests sends seq map].
    pose proof (send_request_traced_run method params s) as Hrun.
    pose proof (send_request_counter method params s) as Hid.
    destruct s as [c w]. unfold send_request_traced in *. rewrite next_request_run in *.
    destruct (exchange _ _) as [o s'] eqn:E. cbn [snd] in Hrun. rewrite <- Hrun in Hid.
    cbn [fst snd] in Hid. cbn [map]. f_equal.
    rewrite IH, Hid. cbn [fst].
    rewrite <- (seq_shift (sends rest) 1), map_map. apply map_ext.
    intros k. f_equal. f_equal. lia.
  - cbn [client_requests sends]. rewrite IH, close_counter. reflexivity.
Qed.

Lemma client_state_counter ops : forall s,
  message_id (fst (client_state ops s)) = (message_id (fst s) + Z.of_nat (sends ops))%Z.
Proof.
  induction ops as [| [| method params |] rest IH]; intros s; cbn [client_state sends].
  - lia.
  - rewrite IH, start_counter. reflexivity.
  - rewrite IH, send_request_counter. lia.
  - rewrite IH, close_counter. reflexivity.
Qed.

(** C1. In a session, which starts with [McpClient.__init__] and goes on
    with any calls of [start], [send_request] and [close] in any order, the
    requests that the successive calls of [send_request] build carry the
    ids 1, 2, 3, ...: the k-th request has id k, whatever the methods, the
    parameters and the child's behaviour (failed calls included), and the
    counter ends at the number of calls. *)
Theorem session_ids_count_from_one path ops w :
  map request_id (client_requests ops (McpClient_init path, w)) =
    map (fun k => Returned (PInt (Z.of_nat k))) (seq 1 (sends ops))
  /\ message_id (fst (client_state ops (McpClient_init path, w))) = Z.of_nat (sends ops).
Proof.
  split.
  - rewrite client_requests_from. reflexivity.
  - rewrite client_state_counter. reflexivity.
Qed.

(** What a call adds to the child's stdin: nothing, or the one request that
    carries the counter's new value. *)
Lemma send_request_stdin method params s :
  let request := make_request (message_id (fst s) + 1)%Z method
                   (match params with Some p => p | None => PNone end) in
  let w' := snd (snd (send_request method params s)) in
  stdin_of w' = stdin_of (snd s) \/ stdin_of w' = (stdin_of (snd s) ++ [wire request])%list.
Proof.
  rewrite send_request_unfold. destruct s as [c w]. cbn [fst snd].
  unfold exchange, bind, print_err, do_world, self_process_pipe, get_self,
    stdin_write_drain, stdout_readline, decode, loads, ret, raise.
  unfold stdin_of, history, wire.
  cbn -[append].
  repeat (break_match; cbn -[append]; rewrite ?choose_app; cbn -[append];
          rewrite ?app_nil_r; auto).
Qed.

Lemma session_ids_distinct calls : forall s,
  NoDup (map request_id (session_requests calls s)).
Proof.
  intros [c w]. rewrite session_requests_from.
  apply Injective_map_NoDup; [| apply seq_NoDup].
  intros j k H. injection H as H. lia.
Qed.

(** C10. Every call of [send_request] advances the counter by exactly one,
    whatever the call comes to (an attribute, write, decoding or parsing
    failure, or a read that never returns): the request it builds carries
    the advanced value, what it writes to the child is nothing or that one
    request, and over any sequence of calls no id is used twice. *)
Theorem send_request_consumes_one_id method params s calls :
  message_id (fst (snd (send_request method params s))) = (message_id (fst s) + 1)%Z
  /\ fst (send_request_traced method params s) =
       Some (make_request (message_id (fst s) + 1) method
               (match params with Some p => p | None => PNone end))
  /\ (stdin_of (snd (snd (send_request method params s))) = stdin_of (snd s) \/
      stdin_of (snd (snd (send_request method params s))) =
        (stdin_of (snd s) ++
         [wire (make_request (message_id (fst s) + 1) method
                  (match params with Some p => p | None => PNone end))])%list)
  /\ NoDup (map request_id (session_requests calls s)).
Proof.
  split; [apply send_request_counter |].
  split; [destruct s as [c w]; reflexivity |].
  split; [apply send_request_stdin | apply session_ids_distinct].
Qed.

Lemma make_request_falsy id method p :
  truthy p = false -> make_request id method p = make_request id method PNone.
Proof.
  intros H. unfold make_request, py_or. rewrite H. reflexivity.
Qed.

(** C9. A call whose params argument is left out, is None, is the empty
    dict or is any other falsy object builds the same request, with the
    empty dict as its params entry, and so runs identically: same bytes on
    the wire, same outcome, same state. *)
Theorem falsy_params_same_request method p s :
  truthy p = false ->
  send_request method (Some p) s = send_request method None s
  /\ fst (send_request_traced method (Some p) s) = fst (send_request_traced method None s)
  /\ fst (send_request_traced method None s) =
       Some (make_request (message_id (fst s) + 1) method (PDict []))
  /\ field (make_request (message_id (fst s) + 1) method (PDict [])) "params" = PDict [].
Proof.
  intros H. destruct s as [c w].
  rewrite !send_request_unfold. cbn [fst snd].
  unfold send_request_traced. rewrite !next_request_run.
  rewrite (make_request_falsy _ _ _ H).
  repeat split.
Qed.

(** C4. When the line that the child has for the call is empty (end of
    file), is longer than readline hands over, or does not decode and parse
    to a value, [send_request] raises; what it raises is what readline,
    decode or json.loads raised, the spec's ProtocolError, and no value is
    returned. *)
Theorem unreadable_line_raises_protocol_error method params c w pid line :
  process c = Some pid ->
  hd None (write_faults w) = None ->
  hd (Line "") (child_output w) = Line line ->
  line = "" \/ ~ (exists v, reads_as line v) ->
  exists e, fst (send_request method params (c, w)) = Raised e /\ ProtocolError e.
Proof.
  intros Hp Hw Hl Hbad.
  rewrite send_request_unfold. cbn [fst snd].
  unfold exchange, bind, print_err, do_world, self_process_pipe, get_self,
    stdin_write_drain, stdout_readline, decode, loads, ret, raise.
  cbn -[append]. rewrite ?Hp. cbn -[append]. rewrite ?Hw. cbn -[append].
  rewrite ?Hp. cbn -[append]. rewrite ?Hl. cbn -[append].
  destruct Hbad as [-> | Hbad].
  - change (within_limit "") with true. cbn -[append].
    rewrite bytes_decode_empty. cbn -[append]. rewrite json_loads_empty.
    exists JSONDecodeError. split; [reflexivity | unfold ProtocolError; auto].
  - destruct (within_limit line) eqn:Hlimit; cbn -[append].
    + destruct (bytes_decode line) as [text |] eqn:Hd; cbn -[append].
      * destruct (json_loads text) as [v | f] eqn:Hj.
        -- exfalso. apply Hbad. exists v. split; [exact Hlimit |].
           exists text. split; assumption.
        -- exists (loads_exception f).
           split; [reflexivity | destruct f; unfold ProtocolError; cbn; auto].
      * exists UnicodeDecodeError. split; [reflexivity | unfold ProtocolError; auto].
    + exists ValueError. split; [reflexivity | unfold ProtocolError; auto].
Qed.

(** C5. When the operating system does not start the executable, [start]
    raises what create_subprocess_exec raised, the spec's
    ProcessLaunchError; the client keeps no process handle and nothing is
    printed. *)
Theorem start_fails_when_launch_fails c w f :
  launch_fault w = Some f ->
  start (c, w) = (Raised (launch_exception f), (c, w))
  /\ ProcessLaunchError (launch_exception f).
Proof.
  intros H. split; [| exists f; reflexivity].
  unfold start, bind, get_self, create_subprocess_exec. cbn. rewrite H. reflexivity.
Qed.

Lemma start_fails_when_launch_fails_aux c w f :
  launch_fault w = Some f -> snd (start (c, w)) = (c, w).
Proof.
  intros H. unfold start, bind, get_self, create_subprocess_exec. cbn. rewrite H. reflexivity.
Qed.

Lemma close_without_handle c w :
  process c = None -> close (c, w) = (Returned tt, (c, w)).
Proof.
  intros H. unfold close, bind, get_self. cbn. rewrite H. reflexivity.
Qed.



(** C3, as the code has it. When the client holds no process handle,
    because [start] was never called or failed, [close] returns without an
    exception and changes nothing: no child exists or is left behind, and
    calling it twice is calling it once. *)
Theorem close_without_handle_is_safe c w :
  process c = None ->
  close (c, w) = (Returned tt, (c, w))
  /\ (close ;; close) (c, w) = close (c, w)
  /\ live_children (snd (snd (close (c, w)))) = live_children w
  /\ (forall f, launch_fault w = Some f ->
        close (snd (start (c, w))) = (Returned tt, (c, w))).
Proof.
  intros H. pose proof (close_without_handle c w H) as Hc.
  split; [exact Hc |].
  split; [rewrite (bind_returned _ _ _ _ _ Hc); reflexivity |].
  split; [rewrite Hc; reflexivity |].
  intros f Hf. rewrite (start_fails_when_launch_fails_aux c w f Hf). exact Hc.
Qed.

End ClientFacts.

(** ** The run of the driver *)












Lemma advanced_emit n ps evs w e :
  emit e (advanced n ps evs w) = advanced n ps (evs ++ [e]) w.
Proof.
  unfold emit, advanced. cbn. rewrite rev_app_distr. reflexivity.
Qed.

Section DriverFacts.

Context {RT : PyRuntime}.









Lemma start_advanced c w :
  launch_fault w = None ->
  start (c, w) =
  (Returned tt,
   (mkClient (server_path c) (Some (List.length (procs w))) (message_id c),
    advanced 0 (procs w ++ [Running])
      [Spawn ["dotnet"; "run"; "--project"; server_path c]; PrintErr "Server started"] w)).
Proof.
  intros H. unfold start, bind, get_self, create_subprocess_exec, put_self, print_err,
    do_world.
  cbn. rewrite H. reflexivity.
Qed.

Lemma sleep_advanced seconds c n ps evs w :
  asyncio_sleep seconds (c, advanced n ps evs w) =
  (Returned tt, (c, advanced n ps (evs ++ [Sleep seconds]) w)).
Proof.
  unfold asyncio_sleep, do_world. cbn [fst snd]. rewrite advanced_emit. reflexivity.
Qed.
















End DriverFacts.

(** ** Statements that leave a part of the state alone *)

Section Stable.

Variable R : state -> state -> Prop.
Hypothesis R_trans : forall a b c, R a b -> R b c -> R a c.

Lemma stable_bind {A B} (m : M A) (k : A -> M B) :
  stable R m -> (forall a, stable R (k a)) -> stable R (bind m k).
Proof.
  intros Hm Hk s. unfold bind. specialize (Hm s).
  destruct (m s) as [[a | e |] s']; cbn [snd] in *; try assumption.
  eapply R_trans; [exact Hm | apply Hk].
Qed.

Lemma stable_try_finally {A} (body : M A) (final : M unit) :
  stable R body -> stable R final -> stable R (try_finally body final).
Proof.
  intros Hb Hf s. unfold try_finally. specialize (Hb s).
  destruct (body s) as [[a | e |] s']; cbn [snd] in *; try assumption;
    (specialize (Hf s'); destruct (final s') as [[u | e' |] s'']; cbn [snd] in *;
     eapply R_trans; eassumption).
Qed.

End Stable.

Section Headers.

Context {RT : PyRuntime}.
























Lemma try_finally_bind_returned {A B} (m : M A) (k : A -> M B) (final : M unit) s a s' :
  m s = (Returned a, s') ->
  try_finally (bind m k) final s = try_finally (k a) final s'.
Proof.
  intros H. unfold try_finally. rewrite (bind_returned _ _ _ _ _ H). reflexivity.
Qed.

Lemma try_finally_raised {A} (body : M A) (final : M unit) s e s' s'' :
  body s = (Raised e, s') ->
  final s' = (Returned tt, s'') ->
  try_finally body final s = (Raised e, s'').
Proof.
  intros Hb Hf. unfold try_finally. rewrite Hb, Hf. reflexivity.
Qed.








End Headers.

(** ** The theorems at work, and where the spec's sentences stop holding *)

Ltac by_eval := vm_compute; reflexivity.

Section Runs.

Import Scenario.



Lemma line_reads_as v :
  within_limit (line_of v) = true ->
  AsciiCodec.decode (line_of v) = Some (line_of v) ->
  AsciiCodec.loads (line_of v) = Parsed v ->
  reads_as (RT := AsciiRuntime.runtime) (line_of v) v.
Proof.
  intros Hk Hd Hj. split; [exact Hk |]. exists (line_of v). split; assumption.
Defined.

Ltac reads := apply line_reads_as; by_eval.




(** [close] twice on a started client: the first call signals the child and
    waits for it, the second finds the handle still set and signals the
    reaped process again, which raises. *)
Lemma close_twice_is_not_close_once :
  let s := started (child []) in
  fst (close s) = Returned tt
  /\ fst ((close ;; close) s) = Raised ProcessLookupError
  /\ (close ;; close) s <> close s.
Proof.
  cbv zeta. split; [by_eval |]. split; [by_eval |].
  vm_compute. discriminate.
Qed.








(** Three calls that fail, each in its own way, then one that succeeds:
    their requests carry the ids 1, 2, 3 and 4, and the id of the request
    that was never written is not given to another. *)
Lemma failed_calls_keep_their_ids :
  let send := send_request (RT := AsciiRuntime.runtime) "tools/list" None in
  let r1 := send (started flaky) in
  let r2 := send (snd r1) in
  let r3 := send (snd r2) in
  let r4 := send (snd r3) in
  fst r1 = Raised BrokenPipeError
  /\ fst r2 = Raised JSONDecodeError
  /\ fst r3 = Raised JSONDecodeError
  /\ fst r4 = Returned (success 4 PNone)
  /\ stdin_of (snd (snd r4)) =
       map (wire (RT := AsciiRuntime.runtime))
         [make_request 2 "tools/list" PNone; make_request 3 "tools/list" PNone;
          make_request 4 "tools/list" PNone]
  /\ message_id (fst (snd r4)) = 4%Z.
Proof.
  cbv zeta.
  split; [by_eval |]. split; [by_eval |]. split; [by_eval |].
  split; [by_eval |]. split; by_eval.
Qed.

Lemma session_ids_count_from_one_witness :
  let ops := [CallStart; CallSend "initialize" (Some initialize_params);
              CallSend "tools/list" None; CallClose; CallSend "tools/list" None] in
  let s := (McpClient_init "srv", child (server_lines two_tools)) in
  (map request_id (client_requests (RT := AsciiRuntime.runtime) ops s) =
     [Returned (PInt 1); Returned (PInt 2); Returned (PInt 3)]
   /\ message_id (fst (client_state (RT := AsciiRuntime.runtime) ops s)) = 3%Z)
  /\ stdin_of (snd (client_state (RT := AsciiRuntime.runtime) ops s)) =
       map (wire (RT := AsciiRuntime.runtime))
         [make_request 1 "initialize" initialize_params;
          make_request 2 "tools/list" PNone;
          make_request 3 "tools/list" PNone].
Proof.
  cbv zeta. split; [| by_eval].
  exact (session_ids_count_from_one (RT := AsciiRuntime.runtime) "srv"
           [CallStart; CallSend "initialize" (Some initialize_params);
            CallSend "tools/list" None; CallClose; CallSend "tools/list" None]
           (child (server_lines two_tools))).
Defined.

Lemma close_without_handle_is_safe_witness :
  let c := McpClient_init "srv" in
  process c = None
  /\ close (c, no_runtime) = (Returned tt, (c, no_runtime))
  /\ (close ;; close) (c, no_runtime) = close (c, no_runtime)
  /\ live_children (snd (snd (close (c, no_runtime)))) = live_children no_runtime
  /\ (forall f, launch_fault no_runtime = Some f ->
        close (snd (start (c, no_runtime))) = (Returned tt, (c, no_runtime))).
Proof.
  cbv zeta. split; [reflexivity |].
  apply (close_without_handle_is_safe (McpClient_init "srv") no_runtime).
  reflexivity.
Defined.

Lemma unreadable_line_raises_protocol_error_witness :
  (exists e,
     fst (send_request (RT := AsciiRuntime.runtime) "initialize" None
            (mkClient "srv" (Some 0%nat) 0, child [])) = Raised e
     /\ ProtocolError e)
  /\ (exists e,
        fst (send_request (RT := AsciiRuntime.runtime) "initialize" None
               (mkClient "srv" (Some 0%nat) 0, child ["<html>oops</html>" ++ nl])) = Raised e
        /\ ProtocolError e)
  /\ (exists e,
        fst (send_request (RT := AsciiRuntime.runtime) "initialize" None
               (mkClient "srv" (Some 0%nat) 0, child [Mishaps.greeting_line 70000]))
          = Raised e
        /\ ProtocolError e).
Proof.
  split; [| split].
  - apply (unreadable_line_raises_protocol_error (RT := AsciiRuntime.runtime)
             "initialize" None (mkClient "srv" (Some 0%nat) 0) (child []) 0%nat "").
    + reflexivity.
    + reflexivity.
    + reflexivity.
    + left. reflexivity.
  - apply (unreadable_line_raises_protocol_error (RT := AsciiRuntime.runtime)
             "initialize" None (mkClient "srv" (Some 0%nat) 0)
             (child ["<html>oops</html>" ++ nl]) 0%nat ("<html>oops</html>" ++ nl)).
    + reflexivity.
    + reflexivity.
    + reflexivity.
    + right. intros [v [_ [text [Hd Hj]]]].
      vm_compute in Hd. injection Hd as Hd. subst text.
      vm_compute in Hj. discriminate Hj.
  - apply (unreadable_line_raises_protocol_error (RT := AsciiRuntime.runtime)
             "initialize" None (mkClient "srv" (Some 0%nat) 0)
             (child [Mishaps.greeting_line 70000]) 0%nat (Mishaps.greeting_line 70000)).
    + reflexivity.
    + reflexivity.
    + reflexivity.
    + right. intros [v [Hk _]].
      assert (E : within_limit (Mishaps.greeting_line 70000) = false) by by_eval.
      rewrite E in Hk. discriminate Hk.
Defined.

Lemma start_fails_when_launch_fails_witness :
  launch_fault no_runtime = Some ExecutableNotFound
  /\ start (McpClient_init "srv", no_runtime) =
       (Raised FileNotFoundError, (McpClient_init "srv", no_runtime))
  /\ ProcessLaunchError FileNotFoundError.
Proof.
  split; [reflexivity |].
  apply (start_fails_when_launch_fails (McpClient_init "srv") no_runtime
           ExecutableNotFound).
  reflexivity.
Defined.

Lemma falsy_params_same_request_witness :
  let s := started (child [line_of welcome]) in
  let send := send_request (RT := AsciiRuntime.runtime) "tools/list" in
  truthy (PDict []) = false
  /\ send (Some (PDict [])) s = send None s
  /\ send (Some PNone) s = send None s
  /\ fst (send None s) = Returned welcome
  /\ stdin_of (snd (snd (send None s))) =
       [wire (RT := AsciiRuntime.runtime) (make_request 1 "tools/list" (PDict []))].
Proof.
  cbv zeta. split; [reflexivity |].
  split; [apply (falsy_params_same_request (RT := AsciiRuntime.runtime)
                   "tools/list" (PDict []) (started (child [line_of welcome])));
          reflexivity |].
  split; [apply (falsy_params_same_request (RT := AsciiRuntime.runtime)
                   "tools/list" PNone (started (child [line_of welcome])));
          reflexivity |].
  split; by_eval.
Defined.

End Runs.

(** ** What the client's calls do besides *)

Section ClientMore.

Context {RT : PyRuntime}.



End ClientMore.

Section CallsMore.

Context {RT : PyRuntime}.

Ltac run_exchange :=
  rewrite send_request_unfold; cbn [fst snd];
  unfold exchange, bind, print_err, do_world, self_process_pipe, get_self,
    stdin_write_drain, stdout_readline, decode, loads, ret, raise;
  cbn -[append within_limit].

Lemma send_request_answered method params c w pid line text r :
  process c = Some pid ->
  hd None (write_faults w) = None ->
  hd (Line "") (child_output w) = Line line ->
  within_limit line = true ->
  bytes_decode line = Some text ->
  json_loads text = Parsed r ->
  send_request method params (c, w) =
  (Returned r,
   (mkClient (server_path c) (process c) (message_id c + 1),
    mkWorld (launch_fault w) (tl (write_faults w)) (tl (child_output w)) (child_gone w)
      (procs w)
      (PrintErr ("Received: " ++ str_strip text)
       :: StdinWrite (wire (request_of c method params))
       :: announce (request_of c method params) :: log w))).
Proof.
  intros Hp Hw Hl Hk Hd Hj. run_exchange.
  rewrite ?Hp. cbn -[append within_limit]. rewrite Hw. cbn -[append within_limit].
  rewrite ?Hp. cbn -[append within_limit]. rewrite Hl. cbn -[append within_limit].
  rewrite Hk. cbn -[append].
  rewrite Hd. cbn -[append]. rewrite Hj. reflexivity.
Qed.

(** X3. [send_request] on a client that was never started: the counter is
    advanced and the request is announced on stderr, then the access to the
    pipe of no process raises AttributeError; nothing is written and nothing
    is read. *)
Theorem send_request_before_start_raises method params c w :
  process c = None ->
  send_request method params (c, w) =
  (Raised AttributeError,
   (mkClient (server_path c) None (message_id c + 1),
    emit (announce (request_of c method params)) w))
  /\ stdin_of (snd (snd (send_request method params (c, w)))) = stdin_of w
  /\ child_output (snd (snd (send_request method params (c, w)))) = child_output w.
Proof.
  intros Hp.
  assert (H : send_request method params (c, w) =
              (Raised AttributeError,
               (mkClient (server_path c) None (message_id c + 1),
                emit (announce (request_of c method params)) w))).
  { run_exchange. rewrite Hp. reflexivity. }
  rewrite H. cbn [fst snd]. split; [reflexivity |]. split; [| reflexivity].
  unfold stdin_of, history, emit. cbn [log rev]. rewrite choose_app. cbn.
  apply app_nil_r.
Qed.

(** X4. When the pipe refuses the write, [send_request] raises the pipe's
    error: the id is consumed, the request is not written, and the child's
    output is not read, so the line that waits there is left for the next
    call. *)
Theorem send_request_write_fault method params c w pid f :
  process c = Some pid ->
  hd None (write_faults w) = Some f ->
  let r := send_request method params (c, w) in
  fst r = Raised (pipe_exception f)
  /\ message_id (fst (snd r)) = (message_id c + 1)%Z
  /\ stdin_of (snd (snd r)) = stdin_of w
  /\ child_output (snd (snd r)) = child_output w
  /\ write_faults (snd (snd r)) = tl (write_faults w).
Proof.
  intros Hp Hw r. subst r. run_exchange.
  rewrite ?Hp. cbn -[append]. rewrite Hw. cbn -[append].
  repeat split.
  unfold stdin_of, history. cbn [log rev]. rewrite choose_app. cbn. apply app_nil_r.
Qed.

(** X5. A call that is answered, with a line that readline hands over and
    that parses, returns the value of the line as it is, whatever that value
    is: its id is not compared with the id of the request, and it need not
    be an object.  The call writes exactly one line, the request, and takes
    exactly one line from the child's output. *)
Theorem send_request_returns_the_line_unchecked method params c w pid line r :
  process c = Some pid ->
  hd None (write_faults w) = None ->
  hd (Line "") (child_output w) = Line line ->
  reads_as line r ->
  let res := send_request method params (c, w) in
  fst res = Returned r
  /\ stdin_of (snd (snd res)) = (stdin_of w ++ [wire (request_of c method params)])%list
  /\ child_output (snd (snd res)) = tl (child_output w)
  /\ stdout_of (snd (snd res)) = stdout_of w
  /\ fst (snd res) = mkClient (server_path c) (process c) (message_id c + 1).
Proof.
  intros Hp Hw Hl [Hk [text [Hd Hj]]] res. subst res.
  rewrite (send_request_answered method params c w pid line text r Hp Hw Hl Hk Hd Hj).
  cbn [fst snd child_output].
  split; [reflexivity |].
  split; [| split; [reflexivity | split; [| reflexivity]]].
  - unfold stdin_of, history. cbn [log rev]. rewrite !choose_app. cbn.
    rewrite !app_nil_r. reflexivity.
  - unfold stdout_of, history. cbn [log rev]. rewrite !choose_app. cbn.
    rewrite !app_nil_r. reflexivity.
Qed.


Lemma accepts_tl n w w' :
  accepts (S n) w -> write_faults w' = tl (write_faults w) -> accepts n w'.
Proof.
  intros H Hw k Hk. rewrite Hw.
  specialize (H (S k) ltac:(lia)).
  destruct (write_faults w) as [| x f]; cbn in *; [destruct k; reflexivity | exact H].
Qed.

Lemma answers_tl line lines w w' :
  answers (line :: lines) w -> child_output w' = tl (child_output w) ->
  hd (Line "") (child_output w) = Line line /\ answers lines w'.
Proof.
  unfold answers. intros H Hw. rewrite Hw.
  destruct (child_output w) as [| x o]; cbn in *; [discriminate H |].
  injection H as Hx Ho. subst x. split; [reflexivity | exact Ho].
Qed.

(** X6. Responses are matched to requests by their order alone: when the
    child's next lines, each of which readline hands over, are the
    encodings of the values [values], the k-th call of a session returns
    the k-th value, whatever the methods called and whatever ids the values
    carry. *)
Theorem session_answers_in_order calls : forall lines values c w pid,
  process c = Some pid ->
  accepts (List.length calls) w ->
  answers lines w ->
  List.length lines = List.length calls ->
  Forall2 reads_as lines values ->
  session_outcomes calls (c, w) = map (@Returned pyval) values.
Proof.
  induction calls as [| [method params] rest IH];
    intros lines values c w pid Hp Hacc Hans Hlen Hread.
  - destruct lines; [| discriminate Hlen]. inversion Hread. reflexivity.
  - destruct lines as [| line lines]; [discriminate Hlen |].
    inversion Hread as [| l v ls vs [Hk [text [Hd Hj]]] Hrest]; subst.
    destruct (answers_tl line lines w
                (mkWorld (launch_fault w) (tl (write_faults w)) (tl (child_output w))
                   (child_gone w) (procs w)
                   (PrintErr ("Received: " ++ str_strip text)
                    :: StdinWrite (wire (request_of c method params))
                    :: announce (request_of c method params) :: log w))
                Hans eq_refl) as [Hl Hans'].
    assert (Hw : hd None (write_faults w) = None).
    { specialize (Hacc 0%nat ltac:(cbn; lia)).
      destruct (write_faults w); [reflexivity | exact Hacc]. }
    cbn [session_outcomes map].
    rewrite (send_request_answered method params c w pid line text v Hp Hw Hl Hk Hd Hj).
    cbn [fst snd]. f_equal.
    apply (IH lines vs _ _ pid).
    + exact Hp.
    + eapply accepts_tl; [exact Hacc | reflexivity].
    + exact Hans'.
    + cbn in Hlen. lia.
    + exact Hrest.
Qed.

Lemma send_request_keeps_stdout_aux method params s :
  stdout_of (snd (snd (send_request method params s))) = stdout_of (snd s).
Proof.
  rewrite send_request_unfold. destruct s as [c w]. cbn [fst snd].
  unfold stdout_of, history.
  unfold exchange, bind, print_err, do_world, self_process_pipe, get_self,
    stdin_write_drain, stdout_readline, decode, loads, ret, raise.
  cbn -[append].
  repeat (break_match; cbn -[append]; rewrite ?choose_app; cbn -[append];
          rewrite ?app_nil_r; auto).
Qed.

(** X13. The three calls of the client write nothing on stdout, however
    they end: what they print, "Server started", "Sending: ..." and
    "Received: ...", goes to stderr, and the report holds only what the
    driver prints. *)
Theorem client_calls_keep_stdout method params s :
  stdout_of (snd (snd (start s))) = stdout_of (snd s)
  /\ stdout_of (snd (snd (send_request method params s))) = stdout_of (snd s)
  /\ stdout_of (snd (snd (close s))) = stdout_of (snd s).
Proof.
  destruct s as [c w]. cbn [snd]. split; [| split].
  - unfold stdout_of, history.
    unfold start, bind, get_self, create_subprocess_exec, put_self, print_err, do_world.
    cbn. repeat (break_match; cbn; rewrite ?choose_app; cbn; rewrite ?app_nil_r; auto).
  - exact (send_request_keeps_stdout_aux method params (c, w)).
  - unfold stdout_of, history.
    unfold close, bind, get_self, proc_terminate, proc_wait, do_world.
    cbn. repeat (break_match; cbn; rewrite ?choose_app; cbn; rewrite ?app_nil_r; auto).
Qed.

End CallsMore.

(** ** What every run of the driver keeps *)

Section Kept.

Context {X : Type} (obs : state -> X).

Lemma keeps_refl s : keeps obs s s.
Proof. reflexivity. Qed.

Lemma keeps_trans a b c : keeps obs a b -> keeps obs b c -> keeps obs a c.
Proof. unfold keeps. intros H1 H2. rewrite H2. exact H1. Qed.

Lemma kept_ret {A} (a : A) : stable (keeps obs) (ret a).
Proof. intros s. apply keeps_refl. Qed.

Lemma kept_lift {A} (o : outcome A) : stable (keeps obs) (lift o).
Proof. intros s. apply keeps_refl. Qed.

Lemma kept_bind {A B} (m : M A) (k : A -> M B) :
  stable (keeps obs) m -> (forall a, stable (keeps obs) (k a)) ->
  stable (keeps obs) (bind m k).
Proof. apply stable_bind. exact keeps_trans. Qed.

Lemma kept_try_finally {A} (body : M A) (final : M unit) :
  stable (keeps obs) body -> stable (keeps obs) final ->
  stable (keeps obs) (try_finally body final).
Proof. apply stable_try_finally. exact keeps_trans. Qed.

Lemma kept_for_each {A} (xs : list A) (body : A -> M unit) :
  (forall x, stable (keeps obs) (body x)) -> stable (keeps obs) (for_each xs body).
Proof.
  intros H. induction xs as [| x r IH]; cbn [for_each].
  - apply kept_ret.
  - apply kept_bind; [apply H | intros _; exact IH].
Qed.

Lemma kept_do_world (f : world -> world) :
  (forall c w, obs (c, f w) = obs (c, w)) -> stable (keeps obs) (do_world f).
Proof. intros H [c w]. apply H. Qed.

End Kept.

Section DriverMore.

Context {RT : PyRuntime}.

















End DriverMore.

(** ** The requests of a run *)

Section ScriptOnly.

Context {RT : PyRuntime}.

Lemma print_keeps_requests text : stable (keeps obs_requests) (print text).
Proof.
  apply kept_do_world. intros c w. unfold obs_requests, stdin_of, history, emit.
  cbn [fst snd log rev]. rewrite choose_app. cbn. rewrite app_nil_r. reflexivity.
Qed.

Lemma sleep_keeps_requests n : stable (keeps obs_requests) (asyncio_sleep n).
Proof.
  apply kept_do_world. intros c w. unfold obs_requests, stdin_of, history, emit.
  cbn [fst snd log rev]. rewrite choose_app. cbn. rewrite app_nil_r. reflexivity.
Qed.

Lemma start_keeps_requests : stable (keeps obs_requests) start.
Proof.
  intros [c w]. unfold keeps, obs_requests, stdin_of, history.
  unfold start, bind, get_self, create_subprocess_exec, put_self, print_err, do_world.
  cbn. repeat (break_match; cbn; rewrite ?choose_app; cbn; rewrite ?app_nil_r; auto).
Qed.

Lemma close_keeps_requests : stable (keeps obs_requests) close.
Proof.
  intros [c w]. unfold keeps, obs_requests, stdin_of, history.
  unfold close, bind, get_self, proc_terminate, proc_wait, do_world.
  cbn. repeat (break_match; cbn; rewrite ?choose_app; cbn; rewrite ?app_nil_r; auto).
Qed.

Lemma render_tool_keeps_requests tool : stable (keeps obs_requests) (render_tool tool).
Proof.
  unfold render_tool, getitem.
  repeat (apply kept_bind;
          [first [apply kept_lift | apply print_keeps_requests] | intros ?]).
  apply print_keeps_requests.
Qed.

(** What a call adds to the child's stdin, finer than [send_request_stdin]:
    a call that returns has written its request. *)
Lemma send_request_wrote method params s :
  let r := send_request method params s in
  message_id (fst (snd r)) = (message_id (fst s) + 1)%Z
  /\ (stdin_of (snd (snd r)) =
        (stdin_of (snd s) ++ [wire (request_of (fst s) method params)])%list
      \/ (stdin_of (snd (snd r)) = stdin_of (snd s)
          /\ forall v, fst r <> Returned v)).
Proof.
  intros r. subst r. split; [apply send_request_counter |].
  rewrite send_request_unfold. destruct s as [c w]. cbn [fst snd].
  unfold stdin_of, history, wire, request_of.
  unfold exchange, bind, print_err, do_world, self_process_pipe, get_self,
    stdin_write_drain, stdout_readline, decode, loads, ret, raise.
  cbn -[append].
  repeat (break_match; cbn -[append]; rewrite ?choose_app; cbn -[append];
          rewrite ?app_nil_r; auto);
    right; (split; [reflexivity | intros v; discriminate]).
Qed.

Section Steps.

Variable base : list string.
Variable wp : string.

Lemma sent_is_sent_some k s : (k <= 5)%nat -> sent base wp k s -> sent_some base wp s.
Proof. intros Hk [_ H]. exists k. split; assumption. Qed.

Lemma steps_kept {A} (m : M A) k :
  (k <= 5)%nat -> stable (keeps obs_requests) m -> steps base wp k m k.
Proof.
  intros Hk Hm s [Hid Hin]. specialize (Hm s).
  unfold keeps, obs_requests in Hm. injection Hm as Hid' Hin'.
  assert (Hs : sent base wp k (snd (m s))).
  { split; [rewrite Hid'; exact Hid | rewrite Hin'; exact Hin]. }
  destruct (fst (m s)); [exact Hs | |]; apply (sent_is_sent_some k); assumption.
Qed.

Lemma steps_bind {A B} (m : M A) (f : A -> M B) k i j :
  steps base wp k m i -> (forall a, steps base wp i (f a) j) ->
  steps base wp k (bind m f) j.
Proof.
  intros Hm Hf s Hs. specialize (Hm s Hs). unfold bind.
  destruct (m s) as [[a | e |] s']; cbn [fst snd] in *.
  - apply Hf. exact Hm.
  - exact Hm.
  - exact Hm.
Qed.

Lemma steps_send method params k :
  (k < 5)%nat ->
  nth k (script_requests wp) PNone =
    make_request (Z.of_nat k + 1) method
      (match params with Some p => p | None => PNone end) ->
  steps base wp k (send_request method params) (S k).
Proof.
  intros Hk Hnth s [Hid Hin].
  destruct (send_request_wrote method params s) as [Hc [Hw | [Hw Hno]]].
  - assert (Hs : sent base wp (S k) (snd (send_request method params s))).
    { split; [rewrite Hc, Hid; lia |].
      rewrite Hw, Hin. unfold request_of. rewrite Hid, <- Hnth, <- app_assoc.
      f_equal. rewrite <- map_last. f_equal.
      change 5%nat with (List.length (script_requests wp)) in Hk.
      clear - Hk. revert k Hk. generalize (script_requests wp).
      induction l as [| x l IH]; intros [| k] Hk; cbn in *; try lia; try reflexivity.
      rewrite <- IH by lia. reflexivity. }
    destruct (fst (send_request method params s));
      [exact Hs | |]; apply (sent_is_sent_some (S k)); (lia || assumption).
  - destruct (fst (send_request method params s)) as [v | e |] eqn:E.
    + exfalso. exact (Hno v eq_refl).
    + exists k. split; [lia | rewrite Hw; exact Hin].
    + exists k. split; [lia | rewrite Hw; exact Hin].
Qed.

Ltac walk :=
  repeat (eapply steps_bind;
          [first [ apply steps_send; [lia | reflexivity]
                 | apply steps_kept;
                   [lia | first [ apply print_keeps_requests | apply kept_lift
                                | apply sleep_keeps_requests
                                | apply start_keeps_requests ]] ]
          | intros ?]).

Lemma handshake_steps : steps base wp 0 handshake 1.
Proof.
  unfold handshake. walk. apply steps_kept; [lia | apply print_keeps_requests].
Qed.

Lemma discovery_steps : steps base wp 1 discovery 2.
Proof.
  unfold discovery, getitem. walk.
  apply steps_kept; [lia |]. apply kept_for_each. apply render_tool_keeps_requests.
Qed.

Lemma invocations_steps : steps base wp 2 (invocations wp) 5.
Proof.
  unfold invocations. walk. apply steps_kept; [lia | apply print_keeps_requests].
Qed.

Lemma exploration_steps : steps base wp 0 (exploration wp) 5.
Proof.
  unfold exploration.
  eapply steps_bind; [apply steps_kept; [lia | apply start_keeps_requests] | intros ?].
  eapply steps_bind; [apply steps_kept; [lia | apply sleep_keeps_requests] | intros ?].
  eapply steps_bind; [apply handshake_steps | intros ?].
  eapply steps_bind; [apply discovery_steps | intros ?].
  apply invocations_steps.
Qed.

End Steps.

(** X11. Whatever the child does, the driver writes to it only requests of
    its script, in the order of the script and each at most once: what a run
    adds to the child's stdin is the encoding of the first n of the five
    requests, for some n up to five. *)
Theorem run_writes_a_prefix_of_the_script sp wp w :
  exists n,
    (n <= 5)%nat
    /\ stdin_of (snd (snd (generate_review sp wp w))) =
         (stdin_of w ++ map wire (firstn n (script_requests wp)))%list.
Proof.
  unfold generate_review, try_finally.
  assert (H0 : sent (stdin_of w) wp 0 (McpClient_init sp, w)).
  { split; [reflexivity | cbn; symmetry; apply app_nil_r]. }
  pose proof (exploration_steps (stdin_of w) wp _ H0) as H.
  destruct (exploration wp (McpClient_init sp, w)) as [[u | e |] s1]; cbn [fst snd] in H.
  - apply (sent_is_sent_some (stdin_of w) wp 5 s1 ltac:(lia)) in H.
    destruct H as [n [Hn Hin]]. exists n. split; [exact Hn |].
    pose proof (close_keeps_requests s1) as K. unfold keeps, obs_requests in K.
    injection K as _ K.
    destruct (close s1) as [[u' | e' |] s2]; cbn [fst snd] in *; rewrite K; exact Hin.
  - destruct H as [n [Hn Hin]]. exists n. split; [exact Hn |].
    pose proof (close_keeps_requests s1) as K. unfold keeps, obs_requests in K.
    injection K as _ K.
    destruct (close s1) as [[u' | e' |] s2]; cbn [fst snd] in *; rewrite K; exact Hin.
  - destruct H as [n [Hn Hin]]. exists n. split; [exact Hn | exact Hin].
Qed.

End ScriptOnly.

(** ** Runs that end early *)

Section EarlyEnds.

Context {RT : PyRuntime}.

Lemma try_finally_blocked {A} (body : M A) (final : M unit) s s' :
  body s = (Blocked, s') -> try_finally body final s = (Blocked, s').
Proof. intros H. unfold try_finally. rewrite H. reflexivity. Qed.

Lemma bind_hangs {A B} (m : M A) (k : A -> M B) s s' :
  m s = (Blocked, s') -> bind m k s = (Blocked, s').
Proof. intros H. unfold bind. rewrite H. reflexivity. Qed.

Lemma start_refused c w f :
  launch_fault w = Some f -> start (c, w) = (Raised (launch_exception f), (c, w)).
Proof.
  intros H. unfold start, bind, get_self, create_subprocess_exec. cbn. rewrite H.
  reflexivity.
Qed.

(** X8. When the executable cannot be started the whole run ends with the
    exception of the launch, and nothing else has happened: no waiting, no
    request, no line of the report, no child; the finally clause finds no
    handle and does nothing. *)
Theorem run_without_runtime_does_nothing sp wp w f :
  launch_fault w = Some f ->
  generate_review sp wp w = (Raised (launch_exception f), (McpClient_init sp, w)).
Proof.
  intros H. unfold generate_review, exploration.
  apply (try_finally_raised _ _ _ _ (McpClient_init sp, w)).
  - apply bind_raised. apply start_refused. exact H.
  - apply close_without_handle. reflexivity.
Qed.

Ltac normal_world :=
  unfold stdout_of, stdin_of, history, advanced, wire, request_of, announce;
  cbn [log procs rev app];
  rewrite ?rev_app_distr, ?rev_involutive; cbn [rev app];
  rewrite ?choose_app; cbn [choose printed_of written_of app];
  rewrite ?app_nil_r, <- ?app_assoc; cbn [app].

Lemma send_request_stalled method params c w pid :
  process c = Some pid ->
  hd None (write_faults w) = None ->
  hd (Line "") (child_output w) = Stall ->
  send_request method params (c, w) =
  (Blocked,
   (mkClient (server_path c) (process c) (message_id c + 1),
    mkWorld (launch_fault w) (tl (write_faults w)) (child_output w) (child_gone w)
      (procs w)
      (StdinWrite (wire (request_of c method params))
       :: announce (request_of c method params) :: log w))).
Proof.
  intros Hp Hw Hl.
  rewrite send_request_unfold. cbn [fst snd].
  unfold exchange, bind, print_err, do_world, self_process_pipe, get_self,
    stdin_write_drain, stdout_readline, decode, loads, ret, raise.
  cbn -[append]. rewrite ?Hp. cbn -[append]. rewrite Hw. cbn -[append].
  rewrite ?Hp. cbn -[append]. rewrite Hl. reflexivity.
Qed.

(** X7. A child that starts and never answers: the handshake request is
    written, the read of its response never returns, and so the run never
    ends; the report stays empty and the finally clause is not reached, the
    child is left running.  The script has no timeout. *)
Theorem silent_child_hangs_the_run sp wp w :
  launch_fault w = None ->
  hd None (write_faults w) = None ->
  hd (Line "") (child_output w) = Stall ->
  let r := generate_review sp wp w in
  fst r = Blocked
  /\ stdin_of (snd (snd r)) =
       (stdin_of w ++ [wire (make_request 1 "initialize" initialize_params)])%list
  /\ stdout_of (snd (snd r)) = stdout_of w
  /\ procs (snd (snd r)) = (procs w ++ [Running])%list
  /\ live_children (snd (snd r)) = S (live_children w).
Proof.
  intros Hlaunch Hw Hl r. subst r. unfold generate_review, exploration.
  rewrite (try_finally_bind_returned _ _ _ _ _ _ (start_advanced _ _ Hlaunch)).
  cbn [McpClient_init server_path message_id].
  rewrite (try_finally_bind_returned _ _ _ _ _ _ (sleep_advanced _ _ _ _ _ _)).
  erewrite try_finally_blocked;
    [| apply bind_hangs; unfold handshake; apply bind_hangs;
       apply (send_request_stalled _ _ _ _ (List.length (procs w)));
       [reflexivity | exact Hw | exact Hl] ].
  cbn [fst snd]. split; [reflexivity |].
  split; [normal_world; reflexivity |].
  split; [normal_world; reflexivity |].
  split; [reflexivity |].
  unfold live_children. cbn [procs advanced]. rewrite filter_app, length_app. cbn. lia.
Qed.






End EarlyEnds.

Section AfterEndOfFile.

Context {RT : PyRuntime}.



End AfterEndOfFile.

(** ** These properties at work *)

Section MoreRuns.

Import Scenario Mishaps.

Ltac reads := apply line_reads_as; by_eval.



Lemma send_request_before_start_raises_witness :
  let c := McpClient_init "srv" in
  let w := child [line_of welcome] in
  let r := send_request (RT := AsciiRuntime.runtime) "initialize" None (c, w) in
  process c = None
  /\ fst r = Raised AttributeError
  /\ message_id (fst (snd r)) = 1%Z
  /\ stdin_of (snd (snd r)) = stdin_of w
  /\ child_output (snd (snd r)) = child_output w.
Proof.
  cbv zeta. split; [reflexivity |].
  destruct (send_request_before_start_raises (RT := AsciiRuntime.runtime)
              "initialize" None (McpClient_init "srv") (child [line_of welcome])
              eq_refl) as [H [H1 H2]].
  rewrite H. cbn [fst snd] in *. rewrite H in H1, H2. cbn [fst snd] in *.
  split; [reflexivity |]. split; [reflexivity |]. split; [exact H1 | exact H2].
Defined.

Lemma send_request_write_fault_witness :
  let s := started flaky in
  let r := send_request (RT := AsciiRuntime.runtime) "initialize" None s in
  hd None (write_faults (snd s)) = Some PipeBroken
  /\ fst r = Raised BrokenPipeError
  /\ message_id (fst (snd r)) = 1%Z
  /\ stdin_of (snd (snd r)) = stdin_of (snd s)
  /\ child_output (snd (snd r)) = child_output (snd s)
  /\ write_faults (snd (snd r)) = [].
Proof.
  cbv zeta. split; [reflexivity |].
  apply (send_request_write_fault (RT := AsciiRuntime.runtime) "initialize" None
           (fst (started flaky)) (snd (started flaky)) 0%nat PipeBroken).
  - reflexivity.
  - reflexivity.
Defined.

Lemma send_request_returns_the_line_unchecked_witness :
  let s := started chatty in
  let r := send_request (RT := AsciiRuntime.runtime) "initialize"
             (Some initialize_params) s in
  fst r = Returned (PStr "listening")
  /\ stdin_of (snd (snd r)) =
       (stdin_of (snd s)
        ++ [wire (RT := AsciiRuntime.runtime)
              (request_of (fst s) "initialize" (Some initialize_params))])%list
  /\ child_output (snd (snd r)) = tl (child_output (snd s))
  /\ stdout_of (snd (snd r)) = stdout_of (snd s)
  /\ fst (snd r) = mkClient "srv" (Some 0%nat) 1.
Proof.
  cbv zeta.
  apply (send_request_returns_the_line_unchecked (RT := AsciiRuntime.runtime)
           "initialize" (Some initialize_params)
           (fst (started chatty)) (snd (started chatty)) 0%nat
           (line_of (PStr "listening")) (PStr "listening")).
  - reflexivity.
  - reflexivity.
  - by_eval.
  - reads.
Defined.


Lemma session_answers_in_order_witness :
  session_outcomes (RT := AsciiRuntime.runtime)
    [("initialize", Some initialize_params); ("tools/list", None); ("tools/list", None)]
    (started chatty)
  = [Returned (PStr "listening"); Returned (listing two_tools); Returned welcome].
Proof.
  apply (session_answers_in_order (RT := AsciiRuntime.runtime)
           [("initialize", Some initialize_params); ("tools/list", None);
            ("tools/list", None)]
           [line_of (PStr "listening"); line_of (listing two_tools); line_of welcome]
           [PStr "listening"; listing two_tools; welcome]
           (fst (started chatty)) (snd (started chatty)) 0%nat).
  - reflexivity.
  - intros k _. destruct k; reflexivity.
  - by_eval.
  - reflexivity.
  - repeat (apply Forall2_cons; [reads |]). apply Forall2_nil.
Defined.

Lemma silent_child_hangs_the_run_witness :
  let r := generate_review (RT := AsciiRuntime.runtime) "srv" "ws" silent in
  fst r = Blocked
  /\ stdin_of (snd (snd r)) =
       (stdin_of silent
        ++ [wire (RT := AsciiRuntime.runtime)
              (make_request 1 "initialize" initialize_params)])%list
  /\ stdout_of (snd (snd r)) = stdout_of silent
  /\ procs (snd (snd r)) = (procs silent ++ [Running])%list
  /\ live_children (snd (snd r)) = S (live_children silent).
Proof.
  cbv zeta.
  apply (silent_child_hangs_the_run (RT := AsciiRuntime.runtime) "srv" "ws" silent);
    reflexivity.
Defined.

Lemma run_without_runtime_does_nothing_witness :
  generate_review (RT := AsciiRuntime.runtime) "srv" "ws" no_runtime =
  (Raised FileNotFoundError, (McpClient_init "srv", no_runtime)).
Proof.
  apply (run_without_runtime_does_nothing (RT := AsciiRuntime.runtime) "srv" "ws"
           no_runtime ExecutableNotFound).
  reflexivity.
Defined.





End MoreRuns.
